(** * requests_circuit_breaker: a shallow embedding of [src/__init__.py]

    The module wraps a remote call in a circuit breaker.  The breaker owns a
    reference to a storage object holding a [FailureCounter]; its [state] is
    recomputed from that counter and the clock on every read, and [__call__]
    runs the wrapped operation, classifies the outcome, updates the storage
    and re-raises a captured error.

    Python objects are modelled by the values the code inspects: exception
    instances by their class and message, responses by their status code,
    [datetime] objects by a microsecond count.  Effects (the storage, the
    breaker's mutable attributes, the clock, raised exceptions) are threaded
    through a state-and-exception monad of our own, in which the world
    survives a raise.  The log of events kept in the world is what a stub
    operation with a call counter, and a storage that counts its calls,
    would let a test observe. *)

From Stdlib Require Import ZArith List String Bool Lia.
Import ListNotations.
Open Scope Z_scope.

(** ** Python classes and values *)

Module Py.

(** The exception classes that matter to the module: the builtin
    hierarchy, the two classes the module defines (lines 10-15), and the
    classes with which [requests] reports transport failures
    ([requests.exceptions.RequestException(IOError)] and
    [requests.exceptions.ConnectionError(RequestException)]).  The bare
    name [ConnectionError] is not imported from [requests] by the module,
    so in [has_failure] it denotes the builtin class. *)
Inductive PyClass : Type :=
| BaseException
| KeyboardInterrupt
| SystemExit
| Exception
| TypeError
| ValueError
| OSError
| ConnectionError
| ConnectionRefusedError
| RequestException
| RequestsConnectionError
| CircuitBreakerError
| CircuitBreakerOpenedError.

(** The direct base class ([class C(B)]). *)
Definition base (c : PyClass) : option PyClass :=
  match c with
  | BaseException => None
  | KeyboardInterrupt => Some BaseException
  | SystemExit => Some BaseException
  | Exception => Some BaseException
  | TypeError => Some Exception
  | ValueError => Some Exception
  | OSError => Some Exception
  | ConnectionError => Some OSError
  | ConnectionRefusedError => Some ConnectionError
  | RequestException => Some OSError
  | RequestsConnectionError => Some RequestException
  | CircuitBreakerError => Some Exception
  | CircuitBreakerOpenedError => Some CircuitBreakerError
  end.

Definition PyClass_eqb (c d : PyClass) : bool :=
  match c, d with
  | BaseException, BaseException
  | KeyboardInterrupt, KeyboardInterrupt
  | SystemExit, SystemExit
  | Exception, Exception
  | TypeError, TypeError
  | ValueError, ValueError
  | OSError, OSError
  | ConnectionError, ConnectionError
  | ConnectionRefusedError, ConnectionRefusedError
  | RequestException, RequestException
  | RequestsConnectionError, RequestsConnectionError
  | CircuitBreakerError, CircuitBreakerError
  | CircuitBreakerOpenedError, CircuitBreakerOpenedError => true
  | _, _ => false
  end.

(** The chain of classes from [c] up to the root; every chain above is
    shorter than the fuel [mro] gives. *)
Fixpoint ancestors (fuel : nat) (c : PyClass) : list PyClass :=
  match fuel with
  | O => []
  | S n => c :: match base c with
                | None => []
                | Some b => ancestors n b
                end
  end.

Definition mro (c : PyClass) : list PyClass := ancestors 8 c.

Definition issubclass (c d : PyClass) : bool :=
  existsb (PyClass_eqb d) (mro c).
Arguments issubclass : simpl never.

(** An exception instance. *)
Record PyExc : Type := mkExc { exc_class : PyClass; exc_msg : string }.

(** The values an operation can return or a checker can be handed. *)
Inductive PyValue : Type :=
| VNone
| VBool (b : bool)
| VInt (n : Z)
| VStr (s : string)
| VResponse (status_code : Z)      (* a [requests.models.Response] *)
| VExc (e : PyExc).

(** [isinstance(v, C)] for an exception class [C]. *)
Definition isinstance (v : PyValue) (c : PyClass) : bool :=
  match v with
  | VExc e => issubclass (exc_class e) c
  | _ => false
  end.

(** A computation either yields a value or raises. *)
Inductive Res (A : Type) : Type :=
| Val (a : A)
| Exn (e : PyExc).
Arguments Val {A} a.
Arguments Exn {A} e.

(** [datetime.datetime]: naive, or aware with an offset from UTC; [us]
    counts microseconds on the object's own calendar. *)
Inductive datetime : Type :=
| Naive (us : Z)
| Aware (us : Z) (utcoffset : Z).

Definition new_TypeError (msg : string) : PyExc := mkExc TypeError msg.

(** [a >= b] on datetimes: naive and aware objects do not compare. *)
Definition datetime_ge (a b : datetime) : Res bool :=
  match a, b with
  | Naive x, Naive y => Val (y <=? x)
  | Aware x ox, Aware y oy => Val (y - oy <=? x - ox)
  | _, _ =>
      Exn (new_TypeError "cannot compare offset-naive and offset-aware datetimes")
  end.

(** [a >= b] where [a : Optional[datetime]]: [None] has no ordering. *)
Definition optional_datetime_ge (a : option datetime) (b : datetime) : Res bool :=
  match a with
  | None =>
      Exn (new_TypeError
             ">= not supported between instances of NoneType and datetime.datetime")
  | Some x => datetime_ge x b
  end.

End Py.
Import Py.

(** ** The module's data types (lines 18-28) *)

Module State.
Inductive t : Type := open | half_open | closed.

Definition eqb (a b : t) : bool :=
  match a, b with
  | open, open | half_open, half_open | closed, closed => true
  | _, _ => false
  end.
End State.

Record FailureCounter : Type := mkFailureCounter {
  total_failures : Z;
  last_failure_dt : option datetime
}.

(** The dataclass defaults: [FailureCounter()]. *)
Definition FailureCounter_default : FailureCounter :=
  {| total_failures := 0; last_failure_dt := None |}.

(** The storage protocol (lines 44-54): the breaker only ever calls these
    three members.  No implementation comes with the module; an
    implementation records the time of a failure itself, so here
    [increment_counter] is handed the clock reading it records. *)
Class Storage (St : Type) : Type := {
  failure_counter : St -> FailureCounter;
  increment_counter : datetime -> St -> St;
  reset_counter : St -> St
}.

(** A failure checker is any callable handed the outcome; it answers with a
    truth value or raises. *)
Definition FailureChecker : Type := PyValue -> Res bool.

(** A wrapped operation, called with the positional arguments [func_args]
    and the keyword arguments [func_kwargs]: it returns a value or raises. *)
Definition Operation : Type :=
  list PyValue -> list (string * PyValue) -> Res PyValue.

(** What an observer of one breaker sees happen, in order: the wrapped
    operation being invoked, and the two storage mutations. *)
Inductive Event : Type :=
| EvInvoke (func_args : list PyValue) (func_kwargs : list (string * PyValue))
| EvIncrement
| EvReset.

Definition is_invoke (e : Event) : bool :=
  match e with EvInvoke _ _ => true | _ => false end.

Definition is_bookkeeping (e : Event) : bool :=
  match e with EvIncrement | EvReset => true | EvInvoke _ _ => false end.

Definition invocation_count (l : list Event) : nat :=
  List.length (filter is_invoke l).

Definition bookkeeping_count (l : list Event) : nat :=
  List.length (filter is_bookkeeping l).

(** ** The breaker (lines 57-107) *)

Module CircuitBreaker.
Section WithStorage.
Context {St : Type} `{Storage St}.

(** The instance attributes set by [__init__]. *)
Record t : Type := mk {
  _storage : St;
  _failure_threshold : Z;
  _failure_checker : option FailureChecker
}.

(** The mutable world a call runs in: the breaker object, the readings the
    clock gives (in microseconds, by read index) and how many were taken,
    and the events so far (oldest first). *)
Record World : Type := mkWorld {
  self : t;
  clock : nat -> Z;
  clock_reads : nat;
  log : list Event
}.

(** Computations: the world is kept when an exception is raised. *)
Definition M (A : Type) : Type := World -> Res A * World.

Definition ret {A} (a : A) : M A := fun w => (Val a, w).

Definition raise {A} (e : PyExc) : M A := fun w => (Exn e, w).

Definition bind {A B} (c : M A) (k : A -> M B) : M B :=
  fun w =>
    match c w with
    | (Val a, w1) => k a w1
    | (Exn e, w1) => (Exn e, w1)
    end.

Local Notation "x <- c ;; k" := (bind c (fun x => k))
  (at level 61, c at next level, right associativity).
Local Notation "c ;;; k" := (bind c (fun _ => k))
  (at level 61, right associativity).

Definition lift {A} (r : Res A) : M A := fun w => (r, w).

Definition emit (e : Event) : M unit :=
  fun w => (Val tt, {| self := self w; clock := clock w;
                       clock_reads := clock_reads w; log := log w ++ [e] |}).

Definition get_self : M t := fun w => (Val (self w), w).

Definition put_self (cb : t) : M unit :=
  fun w => (Val tt, {| self := cb; clock := clock w;
                       clock_reads := clock_reads w; log := log w |}).

(** [datetime.datetime.utcnow()]: a naive datetime, the next clock reading. *)
Definition utcnow : M datetime :=
  fun w => (Val (Naive (clock w (clock_reads w))),
            {| self := self w; clock := clock w;
               clock_reads := S (clock_reads w); log := log w |}).

(** [raise v]: only exception instances can be raised. *)
Definition raise_value {A} (v : PyValue) : M A :=
  match v with
  | VExc e => raise e
  | _ => raise (new_TypeError "exceptions must derive from BaseException")
  end.

(** [try: body / except Exception as e: result = e]: an instance of
    [Exception] raised by the body becomes the value; anything else raised
    keeps propagating. *)
Definition try_except_Exception (body : M PyValue) : M PyValue :=
  fun w =>
    match body w with
    | (Val v, w1) => (Val v, w1)
    | (Exn e, w1) =>
        if issubclass (exc_class e) Exception then (Val (VExc e), w1)
        else (Exn e, w1)
    end.

(** Calling the wrapped operation. *)
Definition invoke (func : Operation) (func_args : list PyValue)
    (func_kwargs : list (string * PyValue)) : M PyValue :=
  emit (EvInvoke func_args func_kwargs) ;;;
  lift (func func_args func_kwargs).

(** The two mutating storage methods, as the breaker sees them:
    [self._storage.increment_counter()], which reads the clock for the time
    it records, and [self._storage.reset_counter()]. *)
Definition storage_increment_counter : M unit :=
  now <- utcnow ;;
  cb <- get_self ;;
  put_self {| _storage := increment_counter now (_storage cb);
              _failure_threshold := _failure_threshold cb;
              _failure_checker := _failure_checker cb |} ;;;
  emit EvIncrement.

Definition storage_reset_counter : M unit :=
  cb <- get_self ;;
  put_self {| _storage := reset_counter (_storage cb);
              _failure_threshold := _failure_threshold cb;
              _failure_checker := _failure_checker cb |} ;;;
  emit EvReset.

(** Lines 59-62. *)
Definition __init__ (storage : St) (failure_checker : option FailureChecker) : t :=
  {| _storage := storage;
     _failure_threshold := 100;
     _failure_checker := failure_checker |}.

(** Lines 64-72.  The clock is read only when the count exceeds the
    threshold, after the left operand of the comparison is fetched. *)
Definition state : M State.t :=
  cb <- get_self ;;
  let counter := failure_counter (_storage cb) in
  if total_failures counter >? _failure_threshold cb then
    now <- utcnow ;;
    ge <- lift (optional_datetime_ge (last_failure_dt counter) now) ;;
    if ge : bool then ret State.half_open else ret State.open
  else ret State.closed.

(** Lines 74-78. *)
Definition reset : M unit := storage_reset_counter.

Definition record_failure : M unit := storage_increment_counter.

(** Lines 98-100. *)
Definition _default_failure_checker (result : PyValue) : bool :=
  isinstance result Exception.

(** Line 103, [self._failure_checker or self._default_failure_checker]:
    an installed checker wins over the default. *)
Definition active_checker (cb : t) : FailureChecker :=
  match _failure_checker cb with
  | Some f => f
  | None => fun r => Val (_default_failure_checker r)
  end.

(** Lines 102-104. *)
Definition check_failure (result : PyValue) : M bool :=
  cb <- get_self ;;
  let checker := active_checker cb in
  lift (checker result).

(** Lines 106-107. *)
Definition add_failure_checker (func : FailureChecker) : M unit :=
  cb <- get_self ;;
  put_self {| _storage := _storage cb;
              _failure_threshold := _failure_threshold cb;
              _failure_checker := Some func |}.

(** Lines 80-96. *)
Definition __call__ (func : Operation) (func_args : list PyValue)
    (func_kwargs : list (string * PyValue)) : M PyValue :=
  st <- state ;;
  if State.eqb st State.open then raise (mkExc CircuitBreakerError "")
  else
    result <- try_except_Exception (invoke func func_args func_kwargs) ;;
    is_failure <- check_failure result ;;
    (if is_failure : bool then record_failure else reset) ;;;
    if isinstance result Exception then raise_value result
    else ret result.

(** Vocabulary for the statements below: the snapshot the storage holds,
    the reading the next clock access gives, and a run of consecutive calls
    of one operation (results in call order). *)
Definition snapshot (w : World) : FailureCounter :=
  failure_counter (_storage (self w)).

Definition next_reading (w : World) : Z := clock w (clock_reads w).

(** The value lines 83-86 bind to [result] for a given outcome of the
    operation, if control gets past them. *)
Definition captured (r : Res PyValue) : option PyValue :=
  match r with
  | Val v => Some v
  | Exn e => if issubclass (exc_class e) Exception then Some (VExc e) else None
  end.

(** What lines 94-96 hand to the caller for a given [result]. *)
Definition handed_back (result : PyValue) : Res PyValue :=
  if isinstance result Exception then
    match result with
    | VExc e => Exn e
    | _ => Exn (new_TypeError "exceptions must derive from BaseException")
    end
  else Val result.

Fixpoint call_repeatedly (n : nat) (func : Operation)
    (func_args : list PyValue) (func_kwargs : list (string * PyValue))
    (w : World) : list (Res PyValue) * World :=
  match n with
  | O => ([], w)
  | S k =>
      let (r, w1) := __call__ func func_args func_kwargs w in
      let (rs, w2) := call_repeatedly k func func_args func_kwargs w1 in
      (r :: rs, w2)
  end.

End WithStorage.
End CircuitBreaker.

(** ** The transport adapter (lines 110-128) *)

Module CircuitBreakerAdapter.
Import CircuitBreaker.

(** Lines 122-128.  The module imports [HTTPAdapter] and [Response] from
    [requests] and nothing else, so [ConnectionError] is the builtin class.
    The second test is [isinstance(result, Response) and
    result.status_code >= 500]. *)
Definition has_failure (result : PyValue) : bool :=
  if isinstance result ConnectionError then true
  else if match result with
          | VResponse status_code => status_code >=? 500
          | _ => false
          end
       then true
  else false.

(** Lines 118-120.  The adapter's [circuit_breaker] attribute is the
    breaker of the world; [super_send] stands for [HTTPAdapter.send]. *)
Definition send {St : Type} `{Storage St} (super_send : Operation)
    (args : list PyValue) (kwargs : list (string * PyValue)) : M PyValue :=
  bind (add_failure_checker (fun r => Val (has_failure r)))
       (fun _ => __call__ super_send args kwargs).

End CircuitBreakerAdapter.

(** ** The storage contract *)

(** Modelled from the spec: the module leaves the storage to its user, and
    what an implementation of the protocol must do is the contract of the
    specification (section 4.1): incrementing adds one to the count and
    records the current time, resetting zeroes the count and clears the
    time. *)
Class StorageLaws (St : Type) `{Storage St} : Prop := {
  increment_counter_spec : forall now s,
    failure_counter (increment_counter now s) =
    {| total_failures := total_failures (failure_counter s) + 1;
       last_failure_dt := Some now |};
  reset_counter_spec : forall s,
    failure_counter (reset_counter s) =
    {| total_failures := 0; last_failure_dt := None |}
}.

(** ** An in-memory storage *)

Module MemoryStorage.

(** The storage is its counter, created zeroed. *)
Definition t : Type := FailureCounter.

Definition new : t := FailureCounter_default.

(** Modelled from the spec: no storage implementation is part of the
    module; this one follows the storage contract of the specification
    (section 4.1): [increment_counter] adds one to the count and records the
    current time, [reset_counter] zeroes the count and clears the time, and
    [failure_counter] reads the counter. *)
#[export] Instance storage : Storage t := {|
  failure_counter := fun s => s;
  increment_counter := fun now s =>
    {| total_failures := total_failures s + 1; last_failure_dt := Some now |};
  reset_counter := fun _ =>
    {| total_failures := 0; last_failure_dt := None |}
|}.

End MemoryStorage.

(** ** Stubs and sample worlds *)

Module Sample.
Import CircuitBreaker MemoryStorage.

(** A clock whose readings strictly increase. *)
Definition ticking (n : nat) : Z := 1000 + Z.of_nat n.

(** A breaker over the in-memory storage, as [__init__] leaves it but for
    the counter already stored. *)
Definition world (counter : FailureCounter)
    (failure_checker : option FailureChecker) : World :=
  {| self := __init__ (counter : MemoryStorage.t) failure_checker;
     clock := ticking;
     clock_reads := 0;
     log := [] |}.

Definition returns (v : PyValue) : Operation := fun _ _ => Val v.

Definition raises (c : PyClass) (msg : string) : Operation :=
  fun _ _ => Exn (mkExc c msg).

(** A checker that always reports failure. *)
Definition always_failure : FailureChecker := fun _ => Val true.

End Sample.

(** ** Client programs *)

Module Client.
Import CircuitBreaker.

(** What the holder of a breaker and of its adapter can do with them: call
    the breaker, send through the adapter, use the breaker's methods, read
    its state. *)
Inductive Action : Type :=
| Call (func : Operation) (func_args : list PyValue)
       (func_kwargs : list (string * PyValue))
| Send (super_send : Operation) (args : list PyValue)
       (kwargs : list (string * PyValue))
| Reset
| RecordFailure
| AddFailureChecker (func : FailureChecker)
| ReadState.

(** The world after one action, whether it returned or raised: the client
    carries on either way. *)
Definition perform {St : Type} `{Storage St} (a : Action) (w : World) : World :=
  match a with
  | Call func func_args func_kwargs => snd (__call__ func func_args func_kwargs w)
  | Send super_send args kwargs =>
      snd (CircuitBreakerAdapter.send super_send args kwargs w)
  | Reset => snd (reset w)
  | RecordFailure => snd (record_failure w)
  | AddFailureChecker func => snd (add_failure_checker func w)
  | ReadState => snd (state w)
  end.

Fixpoint perform_all {St : Type} `{Storage St} (l : list Action) (w : World)
    : World :=
  match l with
  | [] => w
  | a :: rest => perform_all rest (perform a w)
  end.

(** A stored counter is stamped when a positive count comes with a naive
    time of last failure. *)
Definition stamped (c : FailureCounter) : Prop :=
  total_failures c > 0 -> exists t, last_failure_dt c = Some (Naive t).

End Client.

(** * Properties *)

Import CircuitBreaker.

(** The in-memory storage keeps the storage contract. *)
#[export] Instance MemoryStorage_laws :
  @StorageLaws MemoryStorage.t MemoryStorage.storage.
Proof. split; reflexivity. Qed.

(** ** Reading the state *)

Section StateFacts.
Context {St : Type} `{Storage St}.

Lemma state_within_threshold (w : World) :
  total_failures (snapshot w) <= _failure_threshold (self w) ->
  state w = (Val State.closed, w).
Proof.
  intros Hle. unfold state, bind, get_self, snapshot in *.
  destruct (Z.gtb_spec (total_failures (failure_counter (_storage (self w))))
              (_failure_threshold (self w))) as [Hgt | _]; [lia | reflexivity].
Qed.

Lemma state_over_threshold (w : World) :
  total_failures (snapshot w) > _failure_threshold (self w) ->
  state w =
  (match optional_datetime_ge (last_failure_dt (snapshot w))
           (Naive (next_reading w)) with
   | Val true => Val State.half_open
   | Val false => Val State.open
   | Exn e => Exn e
   end,
   {| self := self w; clock := clock w;
      clock_reads := S (clock_reads w); log := log w |}).
Proof.
  intros Hgt. unfold state, bind, get_self, snapshot, next_reading in *.
  destruct (Z.gtb_spec (total_failures (failure_counter (_storage (self w))))
              (_failure_threshold (self w))) as [_ | Hle]; [| lia].
  unfold utcnow, lift; cbn.
  destruct (optional_datetime_ge _ _) as [[|]|e]; reflexivity.
Qed.

(** Reading the state touches neither the breaker nor the log. *)
Lemma state_preserves (w : World) :
  self (snd (state w)) = self w /\ log (snd (state w)) = log w /\
  clock (snd (state w)) = clock w.
Proof.
  destruct (Z.le_gt_cases (total_failures (snapshot w))
              (_failure_threshold (self w))) as [Hle | Hgt].
  - rewrite (state_within_threshold w Hle). auto.
  - rewrite (state_over_threshold w) by lia. auto.
Qed.

(** C2: for every storage snapshot, threshold and clock reading, the state
    read yields [half_open] when the count exceeds the threshold and the
    recorded time is at or after the current time, [open] when the count
    exceeds the threshold and the recorded time is before the current time,
    and [closed] whenever the count is at most the threshold, whatever the
    timestamp (absent included). *)
Theorem state_derivation (w : World) (t : Z) :
  (total_failures (snapshot w) > _failure_threshold (self w) ->
   last_failure_dt (snapshot w) = Some (Naive t) ->
   t >= next_reading w ->
   fst (state w) = Val State.half_open) /\
  (total_failures (snapshot w) > _failure_threshold (self w) ->
   last_failure_dt (snapshot w) = Some (Naive t) ->
   t < next_reading w ->
   fst (state w) = Val State.open) /\
  (total_failures (snapshot w) <= _failure_threshold (self w) ->
   fst (state w) = Val State.closed).
Proof.
  repeat split.
  - intros Hgt Hlast Hge. rewrite (state_over_threshold w Hgt), Hlast. cbn.
    destruct (Z.leb_spec (next_reading w) t); [reflexivity | lia].
  - intros Hgt Hlast Hlt. rewrite (state_over_threshold w Hgt), Hlast. cbn.
    destruct (Z.leb_spec (next_reading w) t); [lia | reflexivity].
  - intros Hle. rewrite (state_within_threshold w Hle). reflexivity.
Qed.

(** With a recorded naive timestamp whenever the count is positive, and a
    threshold that is not negative, the state read returns a state. *)
Lemma state_total_under_invariant (w : World) :
  0 <= _failure_threshold (self w) ->
  (total_failures (snapshot w) > 0 ->
   exists t, last_failure_dt (snapshot w) = Some (Naive t)) ->
  exists s, fst (state w) = Val s.
Proof.
  intros Hthr Hinv.
  destruct (Z.le_gt_cases (total_failures (snapshot w))
              (_failure_threshold (self w))) as [Hle | Hgt].
  - rewrite (state_within_threshold w Hle). cbn. eauto.
  - destruct Hinv as [t Ht]; [lia |].
    rewrite (state_over_threshold w) by lia. rewrite Ht. cbn.
    destruct (next_reading w <=? t); cbn; eauto.
Qed.

(** C9: for any storage snapshot whose count exceeds the threshold while no
    last-failure time is recorded, the state read raises a [TypeError]
    (from comparing [None] with the current time) instead of returning a
    state; the clock has been read by then. *)
Theorem state_type_error_without_timestamp (w : World) :
  total_failures (snapshot w) > _failure_threshold (self w) ->
  last_failure_dt (snapshot w) = None ->
  (exists e, fst (state w) = Exn e /\ exc_class e = TypeError) /\
  (forall s, fst (state w) <> Val s) /\
  clock_reads (snd (state w)) = S (clock_reads w).
Proof.
  intros Hgt Hnone. rewrite (state_over_threshold w Hgt), Hnone. cbn.
  repeat split.
  - eexists; split; reflexivity.
  - intros s Hs; discriminate Hs.
Qed.

End StateFacts.

(** ** One call *)

(** [state_kept w Hst Hself Hlog]: from [Hst : state w = (_, w1)], the
    breaker and the log of [w1] are those of [w]. *)
Ltac state_kept w Hst Hself Hlog :=
  pose proof (state_preserves w) as (Hself & Hlog & _);
  rewrite Hst in Hself, Hlog; cbn [fst snd] in Hself, Hlog.

(** Steps over the guard of line 81 when the state read gave [s], not open. *)
Ltac pass_guard Hst s :=
  unfold __call__, bind at 1; rewrite Hst;
  replace (State.eqb s State.open) with false
    by (destruct s; [congruence | reflexivity | reflexivity]).

Section CallFacts.
Context {St : Type} `{Storage St}.

Lemma record_failure_run (w : World) :
  record_failure w =
  (Val tt,
   {| self := {| _storage := increment_counter (Naive (next_reading w))
                               (_storage (self w));
                 _failure_threshold := _failure_threshold (self w);
                 _failure_checker := _failure_checker (self w) |};
      clock := clock w;
      clock_reads := S (clock_reads w);
      log := log w ++ [EvIncrement] |}).
Proof. reflexivity. Qed.

Lemma reset_run (w : World) :
  reset w =
  (Val tt,
   {| self := {| _storage := reset_counter (_storage (self w));
                 _failure_threshold := _failure_threshold (self w);
                 _failure_checker := _failure_checker (self w) |};
      clock := clock w;
      clock_reads := clock_reads w;
      log := log w ++ [EvReset] |}).
Proof. reflexivity. Qed.

(** An open breaker: the call raises a fresh [CircuitBreakerError] and
    nothing but the state read has happened. *)
Lemma call_when_open (func : Operation) (func_args : list PyValue)
    (func_kwargs : list (string * PyValue)) (w w1 : World) :
  state w = (Val State.open, w1) ->
  __call__ func func_args func_kwargs w = (Exn (mkExc CircuitBreakerError ""), w1).
Proof.
  intros Hst. unfold __call__, bind. rewrite Hst. reflexivity.
Qed.

(** The state read itself failing ends the call. *)
Lemma call_when_state_raises (func : Operation) (func_args : list PyValue)
    (func_kwargs : list (string * PyValue)) (w w1 : World) (e : PyExc) :
  state w = (Exn e, w1) ->
  __call__ func func_args func_kwargs w = (Exn e, w1).
Proof.
  intros Hst. unfold __call__, bind. rewrite Hst. reflexivity.
Qed.

(** A breaker that is not open, an outcome the [except] clause lets
    through to [result], and a checker that answers: the operation runs,
    one bookkeeping method runs, and the result is handed back. *)
Lemma call_when_allowed (func : Operation) (func_args : list PyValue)
    (func_kwargs : list (string * PyValue)) (w w1 : World)
    (s : State.t) (v : PyValue) (b : bool) :
  state w = (Val s, w1) ->
  s <> State.open ->
  captured (func func_args func_kwargs) = Some v ->
  active_checker (self w) v = Val b ->
  __call__ func func_args func_kwargs w =
  (handed_back v,
   snd ((if b then record_failure else reset)
          (snd (emit (EvInvoke func_args func_kwargs) w1)))).
Proof.
  intros Hst Hs Hcap Hchk.
  state_kept w Hst Hself Hlog.
  pass_guard Hst s.
  unfold bind, try_except_Exception, invoke, bind, emit, lift, check_failure,
    get_self, bind; cbn.
  unfold captured in Hcap.
  destruct (func func_args func_kwargs) as [v0 | e0].
  - injection Hcap as ->. cbn. rewrite Hself, Hchk.
    unfold handed_back.
    destruct b; cbn; destruct (isinstance v Exception); try reflexivity;
      destruct v; reflexivity.
  - destruct (issubclass (exc_class e0) Exception) eqn:Hsub; [| discriminate].
    injection Hcap as <-. cbn. rewrite Hself, Hchk.
    unfold handed_back. cbn. rewrite Hsub.
    destruct b; reflexivity.
Qed.

(** An exception outside [Exception] passes through the [except] clause:
    the call ends right after the operation, with no bookkeeping. *)
Lemma call_when_not_caught (func : Operation) (func_args : list PyValue)
    (func_kwargs : list (string * PyValue)) (w w1 : World)
    (s : State.t) (e : PyExc) :
  state w = (Val s, w1) ->
  s <> State.open ->
  func func_args func_kwargs = Exn e ->
  issubclass (exc_class e) Exception = false ->
  __call__ func func_args func_kwargs w =
  (Exn e, snd (emit (EvInvoke func_args func_kwargs) w1)).
Proof.
  intros Hst Hs Hf Hsub.
  pass_guard Hst s.
  unfold bind, try_except_Exception, invoke, bind, emit, lift; cbn.
  rewrite Hf, Hsub. reflexivity.
Qed.

(** A checker that raises ends the call with its own exception, before any
    bookkeeping. *)
Lemma call_when_checker_raises (func : Operation) (func_args : list PyValue)
    (func_kwargs : list (string * PyValue)) (w w1 : World)
    (s : State.t) (v : PyValue) (e : PyExc) :
  state w = (Val s, w1) ->
  s <> State.open ->
  captured (func func_args func_kwargs) = Some v ->
  active_checker (self w) v = Exn e ->
  __call__ func func_args func_kwargs w =
  (Exn e, snd (emit (EvInvoke func_args func_kwargs) w1)).
Proof.
  intros Hst Hs Hcap Hchk.
  state_kept w Hst Hself Hlog.
  pass_guard Hst s.
  unfold bind, try_except_Exception, invoke, bind, emit, lift, check_failure,
    get_self, bind; cbn.
  unfold captured in Hcap.
  destruct (func func_args func_kwargs) as [v0 | e0].
  - injection Hcap as ->. cbn. rewrite Hself, Hchk. reflexivity.
  - destruct (issubclass (exc_class e0) Exception) eqn:Hsub; [| discriminate].
    injection Hcap as <-. cbn. rewrite Hself, Hchk. reflexivity.
Qed.

End CallFacts.

(** ** What a call does *)

Section CallProperties.
Context {St : Type} `{Storage St}.

(** For every breaker whose state is open, the call raises at once and
    the wrapped operation is not invoked; the exception is a plain
    [CircuitBreakerError]. *)
Lemma open_call_never_invokes (func : Operation) (func_args : list PyValue)
    (func_kwargs : list (string * PyValue)) (w : World) :
  fst (state w) = Val State.open ->
  fst (__call__ func func_args func_kwargs w) = Exn (mkExc CircuitBreakerError "") /\
  log (snd (__call__ func func_args func_kwargs w)) = log w /\
  self (snd (__call__ func func_args func_kwargs w)) = self w.
Proof.
  intros Hst. destruct (state w) as [r w1] eqn:Hrun. cbn in Hst. subst r.
  rewrite (call_when_open _ _ _ _ _ Hrun). cbn.
  pose proof (state_preserves w) as (Hself & Hlog & _).
  rewrite Hrun in Hself, Hlog. cbn in Hself, Hlog. auto.
Qed.

(** C1 (as the code has it): for every breaker whose derived state is open,
    the call raises immediately and the wrapped operation is never invoked,
    its invocation count unchanged; but what is raised is an instance of
    [CircuitBreakerError] that is not a [CircuitBreakerOpenedError]. *)
Theorem open_call_raises_base_error (func : Operation)
    (func_args : list PyValue) (func_kwargs : list (string * PyValue))
    (w : World) :
  fst (state w) = Val State.open ->
  exists e,
    fst (__call__ func func_args func_kwargs w) = Exn e /\
    exc_class e = CircuitBreakerError /\
    isinstance (VExc e) CircuitBreakerOpenedError = false /\
    invocation_count (log (snd (__call__ func func_args func_kwargs w))) =
    invocation_count (log w).
Proof.
  intros Hst.
  destruct (open_call_never_invokes func func_args func_kwargs w Hst)
    as (Hres & Hlog & _).
  exists (mkExc CircuitBreakerError ""). rewrite Hres, Hlog.
  repeat split.
Qed.

(** C5 (amended): every error raised by the wrapped operation inside a call
    leaves the call as that very exception value, unchanged, provided the
    active checker answers on it whenever it is consulted: an [Exception]
    instance is re-raised after exactly one bookkeeping method has run; an
    error that is not an [Exception] instance propagates at once, no
    bookkeeping method having run. *)
Theorem call_reraises_same_error (func : Operation)
    (func_args : list PyValue) (func_kwargs : list (string * PyValue))
    (w w1 : World) (s : State.t) (e : PyExc) :
  state w = (Val s, w1) ->
  s <> State.open ->
  func func_args func_kwargs = Exn e ->
  (issubclass (exc_class e) Exception = true ->
   exists b, active_checker (self w) (VExc e) = Val b) ->
  fst (__call__ func func_args func_kwargs w) = Exn e /\
  (issubclass (exc_class e) Exception = true ->
   bookkeeping_count (log (snd (__call__ func func_args func_kwargs w))) =
   S (bookkeeping_count (log w))) /\
  (issubclass (exc_class e) Exception = false ->
   bookkeeping_count (log (snd (__call__ func func_args func_kwargs w))) =
   bookkeeping_count (log w)).
Proof.
  intros Hst Hs Hf Hchk.
  state_kept w Hst Hself Hlog.
  destruct (issubclass (exc_class e) Exception) eqn:Hsub.
  - destruct (Hchk eq_refl) as [b Hb].
    rewrite (call_when_allowed func func_args func_kwargs w w1 s (VExc e) b);
      auto.
    + unfold handed_back. cbn. rewrite Hsub.
      split; [reflexivity | split; [| discriminate]].
      intros _. unfold bookkeeping_count.
      destruct b; cbn; rewrite Hlog, !filter_app, !length_app; cbn; lia.
    + unfold captured. rewrite Hf, Hsub. reflexivity.
  - rewrite (call_when_not_caught func func_args func_kwargs w w1 s e); auto.
    split; [reflexivity | split; [discriminate |]].
    intros _. unfold bookkeeping_count. cbn.
    rewrite Hlog, filter_app, length_app. cbn. lia.
Qed.

(** C10: with no checker installed and the breaker not open, an operation
    that returns an [Exception] instance is treated exactly like one that
    raises it: the default checker reports a failure, the storage is
    incremented, and the call raises the returned value. *)
Theorem returned_exception_is_raised (func : Operation)
    (func_args : list PyValue) (func_kwargs : list (string * PyValue))
    (w w1 : World) (s : State.t) (e : PyExc) :
  state w = (Val s, w1) ->
  s <> State.open ->
  _failure_checker (self w) = None ->
  func func_args func_kwargs = Val (VExc e) ->
  issubclass (exc_class e) Exception = true ->
  active_checker (self w) (VExc e) = Val true /\
  fst (__call__ func func_args func_kwargs w) = Exn e /\
  log (snd (__call__ func func_args func_kwargs w)) =
    log w ++ [EvInvoke func_args func_kwargs; EvIncrement] /\
  _storage (self (snd (__call__ func func_args func_kwargs w))) =
    increment_counter (Naive (next_reading w1)) (_storage (self w)) /\
  __call__ func func_args func_kwargs w =
    __call__ (fun _ _ => Exn e) func_args func_kwargs w.
Proof.
  intros Hst Hs Hnone Hf Hsub.
  state_kept w Hst Hself Hlog.
  assert (Hchk : active_checker (self w) (VExc e) = Val true).
  { unfold active_checker, _default_failure_checker. rewrite Hnone.
    cbn. rewrite Hsub. reflexivity. }
  rewrite (call_when_allowed func func_args func_kwargs w w1 s (VExc e) true);
    auto; [| unfold captured; rewrite Hf; reflexivity].
  rewrite (call_when_allowed (fun _ _ => Exn e) func_args func_kwargs
             w w1 s (VExc e) true);
    auto; [| unfold captured; rewrite Hsub; reflexivity].
  unfold handed_back. cbn. rewrite Hsub, Hself, Hlog, <- app_assoc.
  repeat split; assumption.
Qed.

End CallProperties.

(** ** Bookkeeping *)

Section Bookkeeping.
Context {St : Type} `{StorageLaws St}.

(** C4 (amended): for every call in which the wrapped operation is invoked
    (the state read returned a state other than open), the operation
    returns or raises an instance of [Exception], and the active checker
    answers on that outcome, exactly one bookkeeping method runs before the
    call ends, right after the operation: [record_failure] (the storage
    count goes up by one) when the checker reports a failure, [reset] (the
    storage count becomes zero and the time is cleared, whatever it was)
    otherwise. *)
Theorem call_runs_one_bookkeeping (func : Operation)
    (func_args : list PyValue) (func_kwargs : list (string * PyValue))
    (w w1 : World) (s : State.t) (v : PyValue) (b : bool) :
  state w = (Val s, w1) ->
  s <> State.open ->
  (func func_args func_kwargs = Val v \/
   exists e, func func_args func_kwargs = Exn e /\
             issubclass (exc_class e) Exception = true /\ v = VExc e) ->
  active_checker (self w) v = Val b ->
  log (snd (__call__ func func_args func_kwargs w)) =
    log w ++ [EvInvoke func_args func_kwargs;
              if b then EvIncrement else EvReset] /\
  bookkeeping_count (log (snd (__call__ func func_args func_kwargs w))) =
    S (bookkeeping_count (log w)) /\
  snapshot (snd (__call__ func func_args func_kwargs w)) =
    (if b then
       {| total_failures := total_failures (snapshot w) + 1;
          last_failure_dt := Some (Naive (next_reading w1)) |}
     else {| total_failures := 0; last_failure_dt := None |}).
Proof.
  intros Hst Hs Hout Hchk.
  state_kept w Hst Hself Hlog.
  assert (Hcap : captured (func func_args func_kwargs) = Some v).
  { destruct Hout as [Hv | (e & He & Hsub & ->)]; unfold captured.
    - rewrite Hv. reflexivity.
    - rewrite He, Hsub. reflexivity. }
  rewrite (call_when_allowed func func_args func_kwargs w w1 s v b); auto.
  unfold snapshot, bookkeeping_count.
  destruct b; cbn; rewrite Hlog, Hself, <- app_assoc; cbn.
  - rewrite increment_counter_spec.
    repeat split. rewrite !filter_app, !length_app. cbn. lia.
  - rewrite reset_counter_spec.
    repeat split. rewrite !filter_app, !length_app. cbn. lia.
Qed.

End Bookkeeping.

(** ** Classification *)

Lemma PyClass_eqb_eq (c d : PyClass) : PyClass_eqb c d = true <-> c = d.
Proof.
  split.
  - destruct c, d; cbn; intros Heq; try reflexivity; discriminate Heq.
  - intros ->. destruct d; reflexivity.
Qed.

(** [issubclass] is membership in the chain of base classes. *)
Lemma issubclass_mro (c d : PyClass) :
  issubclass c d = true <-> In d (mro c).
Proof.
  unfold issubclass. rewrite existsb_exists. split.
  - intros (x & Hin & Heq). apply PyClass_eqb_eq in Heq. subst x. exact Hin.
  - intros Hin. exists d. split; [exact Hin | now apply PyClass_eqb_eq].
Qed.

Section Classification.
Context {St : Type} `{Storage St}.

(** C6: when no checker has been installed, [check_failure] answers for
    every outcome value, without touching the world, and the answer is true
    exactly when the outcome is an exception instance whose class derives
    from [Exception]. *)
Theorem default_checker_iff_exception (w : @World St) (v : PyValue) :
  _failure_checker (self w) = None ->
  exists b,
    check_failure v w = (Val b, w) /\
    (b = true <-> exists e, v = VExc e /\ In Exception (mro (exc_class e))).
Proof.
  intros Hnone.
  exists (_default_failure_checker v). split.
  - unfold check_failure, bind, get_self, lift, active_checker.
    rewrite Hnone. reflexivity.
  - unfold _default_failure_checker, isinstance. split.
    + destruct v as [| | | | |e]; try discriminate.
      intros Hsub. exists e. split; [reflexivity | now apply issubclass_mro].
    + intros (e & -> & Hin). now apply issubclass_mro.
Qed.

(** The adapter's checker: true exactly on instances of the builtin
    [ConnectionError] and on responses whose status code is 500 or more. *)
Lemma has_failure_spec (v : PyValue) :
  CircuitBreakerAdapter.has_failure v = true <->
  (exists e, v = VExc e /\ In ConnectionError (mro (exc_class e))) \/
  (exists code, v = VResponse code /\ code >= 500).
Proof.
  unfold CircuitBreakerAdapter.has_failure, isinstance. split.
  - destruct v as [| | | |code|e]; try discriminate.
    + destruct (Z.geb_spec code 500); [| discriminate].
      intros _. right. exists code. split; [reflexivity | lia].
    + destruct (issubclass (exc_class e) ConnectionError) eqn:Hsub;
        [| discriminate].
      intros _. left. exists e. split; [reflexivity | now apply issubclass_mro].
  - intros [(e & -> & Hin) | (code & -> & Hcode)].
    + apply issubclass_mro in Hin. rewrite Hin. reflexivity.
    + destruct (Z.geb_spec code 500); [reflexivity | lia].
Qed.

End Classification.

(** ** The breaker's own attributes *)

Section Attributes.
Context {St : Type} `{Storage St}.

(** Whatever a call does, it leaves the threshold, the installed checker
    and the clock's readings as they were. *)
Lemma call_preserves (func : Operation) (func_args : list PyValue)
    (func_kwargs : list (string * PyValue)) (w : World) :
  _failure_threshold (self (snd (__call__ func func_args func_kwargs w))) =
    _failure_threshold (self w) /\
  _failure_checker (self (snd (__call__ func func_args func_kwargs w))) =
    _failure_checker (self w) /\
  clock (snd (__call__ func func_args func_kwargs w)) = clock w.
Proof.
  pose proof (state_preserves w) as (Hself & _ & Hclock).
  destruct (state w) as [[s | e] w1] eqn:Hst; cbn in Hself, Hclock.
  - destruct (State.eqb s State.open) eqn:Hopen.
    + destruct s; try discriminate.
      rewrite (call_when_open _ _ _ _ _ Hst). cbn.
      rewrite Hself, Hclock. auto.
    + assert (Hs : s <> State.open) by (intros ->; discriminate).
      destruct (captured (func func_args func_kwargs)) as [v |] eqn:Hcap.
      * destruct (active_checker (self w) v) as [b | e] eqn:Hchk.
        -- rewrite (call_when_allowed _ _ _ _ _ _ _ _ Hst Hs Hcap Hchk).
           destruct b; cbn; rewrite Hself, Hclock; auto.
        -- rewrite (call_when_checker_raises _ _ _ _ _ _ _ _ Hst Hs Hcap Hchk).
           cbn. rewrite Hself, Hclock. auto.
      * unfold captured in Hcap.
        destruct (func func_args func_kwargs) as [v | e] eqn:Hf;
          [discriminate |].
        destruct (issubclass (exc_class e) Exception) eqn:Hsub;
          [discriminate |].
        rewrite (call_when_not_caught _ _ _ _ _ _ _ Hst Hs Hf Hsub).
        cbn. rewrite Hself, Hclock. auto.
  - rewrite (call_when_state_raises _ _ _ _ _ _ Hst). cbn.
    rewrite Hself, Hclock. auto.
Qed.

(** C8 (amended): the constructor takes a storage (required) and an
    optional failure checker, and nothing else: the threshold is not an
    input but always 100, and no method of the breaker or of the adapter
    changes it afterwards. *)
Theorem init_fixes_threshold (storage : St)
    (failure_checker : option FailureChecker) :
  _storage (__init__ storage failure_checker) = storage /\
  _failure_checker (__init__ storage failure_checker) = failure_checker /\
  _failure_threshold (__init__ storage failure_checker) = 100 /\
  (forall w : World,
     _failure_threshold (self (snd (state w))) = _failure_threshold (self w) /\
     _failure_threshold (self (snd (reset w))) = _failure_threshold (self w) /\
     _failure_threshold (self (snd (record_failure w))) =
       _failure_threshold (self w) /\
     (forall f, _failure_threshold (self (snd (add_failure_checker f w))) =
                _failure_threshold (self w)) /\
     (forall func func_args func_kwargs,
        _failure_threshold
          (self (snd (__call__ func func_args func_kwargs w))) =
        _failure_threshold (self w)) /\
     (forall super_send args kwargs,
        _failure_threshold
          (self (snd (CircuitBreakerAdapter.send super_send args kwargs w))) =
        _failure_threshold (self w))).
Proof.
  repeat split; try reflexivity.
  - now destruct (state_preserves w) as (-> & _).
  - intros func func_args func_kwargs.
    apply (call_preserves func func_args func_kwargs w).
  - intros super_send args kwargs.
    unfold CircuitBreakerAdapter.send, bind. cbn.
    match goal with
    | |- context [__call__ ?f ?a ?k ?w0] =>
        destruct (call_preserves f a k w0) as (Hthr & _);
        destruct (__call__ f a k w0) as [r w'] eqn:Hcall
    end.
    cbn in *. exact Hthr.
Qed.

End Attributes.

(** ** Repeated failing calls *)

Section Tripping.
Context {St : Type} `{StorageLaws St}.

Variable func : Operation.
Variable e : PyExc.
Variable chk : FailureChecker.
Variable func_args : list PyValue.
Variable func_kwargs : list (string * PyValue).

Hypothesis func_raises : forall a k, func a k = Exn e.
Hypothesis e_is_Exception : issubclass (exc_class e) Exception = true.
Hypothesis chk_reports_failure : forall v, chk v = Val true.

(** One failing call below the threshold: the operation runs, its error
    comes back, and the storage is incremented with the next reading. *)
Lemma failing_call_below_threshold (w : World) :
  _failure_checker (self w) = Some chk ->
  total_failures (snapshot w) <= _failure_threshold (self w) ->
  __call__ func func_args func_kwargs w =
  (Exn e,
   {| self := {| _storage := increment_counter (Naive (next_reading w))
                               (_storage (self w));
                 _failure_threshold := _failure_threshold (self w);
                 _failure_checker := _failure_checker (self w) |};
      clock := clock w;
      clock_reads := S (clock_reads w);
      log := log w ++ [EvInvoke func_args func_kwargs; EvIncrement] |}).
Proof.
  intros Hchk Hle.
  rewrite (call_when_allowed func func_args func_kwargs w w
             State.closed (VExc e) true).
  - unfold handed_back. cbn. rewrite e_is_Exception, <- app_assoc.
    reflexivity.
  - now apply state_within_threshold.
  - discriminate.
  - unfold captured. rewrite func_raises, e_is_Exception. reflexivity.
  - unfold active_checker. rewrite Hchk. apply chk_reports_failure.
Qed.

(** As long as the count stays within the threshold before each call, [n]
    calls in a row each run the operation and increment the counter. *)
Lemma failing_calls_accumulate (n : nat) :
  forall w : World,
    _failure_checker (self w) = Some chk ->
    total_failures (snapshot w) + Z.of_nat n <= _failure_threshold (self w) + 1 ->
    let run := call_repeatedly n func func_args func_kwargs w in
    fst run = repeat (Exn e) n /\
    total_failures (snapshot (snd run)) = total_failures (snapshot w) + Z.of_nat n /\
    log (snd run) =
      log w ++ List.concat (repeat [EvInvoke func_args func_kwargs; EvIncrement] n) /\
    _failure_threshold (self (snd run)) = _failure_threshold (self w) /\
    _failure_checker (self (snd run)) = Some chk /\
    clock (snd run) = clock w /\
    clock_reads (snd run) = (clock_reads w + n)%nat /\
    (forall k, n = S k ->
       last_failure_dt (snapshot (snd run)) =
       Some (Naive (clock w (clock_reads w + k)%nat))).
Proof.
  induction n as [| n IH]; intros w Hchk Hbound; cbn zeta.
  - cbn. rewrite app_nil_r, Nat.add_0_r, Z.add_0_r.
    repeat split; auto. discriminate.
  - cbn [call_repeatedly].
    rewrite (failing_call_below_threshold w Hchk) by lia.
    match goal with
    | |- context [call_repeatedly n _ _ _ ?w1] =>
        set (wnext := w1);
        specialize (IH wnext)
    end.
    assert (Hsnap : snapshot wnext =
                    {| total_failures := total_failures (snapshot w) + 1;
                       last_failure_dt := Some (Naive (next_reading w)) |}).
    { unfold snapshot, wnext. cbn. apply increment_counter_spec. }
    destruct IH as (Hres & Htf & Hlog & Hthr & Hck & Hclk & Hreads & Hlast).
    { exact Hchk. }
    { rewrite Hsnap. cbn. lia. }
    destruct (call_repeatedly n func func_args func_kwargs wnext)
      as [rs w'] eqn:Hrun.
    cbn in Hres, Htf, Hlog, Hthr, Hck, Hclk, Hreads, Hlast |- *.
    rewrite Hsnap in Htf. cbn in Htf.
    repeat split.
    + now rewrite Hres.
    + lia.
    + rewrite Hlog, <- app_assoc. reflexivity.
    + exact Hthr.
    + exact Hck.
    + exact Hclk.
    + lia.
    + intros k Hk. injection Hk as <-.
      destruct n as [| m].
      * cbn in Hrun. injection Hrun as _ <-.
        rewrite Hsnap, Nat.add_0_r. reflexivity.
      * rewrite (Hlast m eq_refl). do 3 f_equal. lia.
Qed.

Lemma invocation_count_rounds (l : list Event) (n : nat) :
  invocation_count
    (l ++ List.concat (repeat [EvInvoke func_args func_kwargs; EvIncrement] n)) =
  (invocation_count l + n)%nat.
Proof.
  unfold invocation_count. rewrite filter_app, length_app. f_equal.
  induction n as [| n IH]; [reflexivity |].
  cbn. now rewrite IH.
Qed.

(** C3 (as the code has it): with the threshold [__init__] sets (100), an
    operation that always raises, a checker that always reports failure and
    a zeroed counter, each of the first 101 calls runs the operation and
    increments the counter, so the count is 101 afterwards; a 102nd call
    made strictly after the last failure time does not invoke the
    operation, but what it raises is an instance of [CircuitBreakerError]
    that is not a [CircuitBreakerOpenedError]. *)
Theorem scenario_A_denial_is_base_error (w : World) (storage : St) :
  self w = __init__ storage (Some chk) ->
  failure_counter storage = FailureCounter_default ->
  let run := call_repeatedly 101 func func_args func_kwargs w in
  fst run = repeat (Exn e) 101 /\
  log (snd run) =
    log w ++ List.concat (repeat [EvInvoke func_args func_kwargs; EvIncrement] 101) /\
  invocation_count (log (snd run)) = (invocation_count (log w) + 101)%nat /\
  total_failures (snapshot (snd run)) = 101 /\
  (forall t,
     last_failure_dt (snapshot (snd run)) = Some (Naive t) ->
     t < next_reading (snd run) ->
     exists e',
       fst (__call__ func func_args func_kwargs (snd run)) = Exn e' /\
       exc_class e' = CircuitBreakerError /\
       isinstance (VExc e') CircuitBreakerOpenedError = false /\
       invocation_count
         (log (snd (__call__ func func_args func_kwargs (snd run)))) =
       invocation_count (log (snd run))).
Proof.
  intros Hself Hzero. cbv zeta.
  assert (Hchk : _failure_checker (self w) = Some chk)
    by (rewrite Hself; reflexivity).
  assert (Hthr : _failure_threshold (self w) = 100)
    by (rewrite Hself; reflexivity).
  assert (Htf0 : total_failures (snapshot w) = 0).
  { unfold snapshot. rewrite Hself. unfold __init__, _storage.
    rewrite Hzero. reflexivity. }
  pose proof (failing_calls_accumulate 101 w Hchk) as Hacc.
  cbv zeta in Hacc.
  remember (call_repeatedly 101 func func_args func_kwargs w) as run eqn:Hrun.
  destruct Hacc as (Hres & Htf & Hlog & Hthr' & _).
  { rewrite Htf0, Hthr. lia. }
  rewrite Htf0 in Htf. change (0 + Z.of_nat 101) with 101 in Htf.
  repeat split; try assumption.
  - rewrite Hlog. apply invocation_count_rounds.
  - intros t Hlast Hlt.
    assert (Hopen : fst (state (snd run)) = Val State.open).
    { rewrite (state_over_threshold (snd run)) by (rewrite Htf, Hthr', Hthr; lia).
      rewrite Hlast. cbn.
      destruct (Z.leb_spec (next_reading (snd run)) t); [lia | reflexivity]. }
    destruct (open_call_never_invokes func func_args func_kwargs (snd run) Hopen)
      as (Hexn & Hlog' & _).
    exists (mkExc CircuitBreakerError ""). rewrite Hexn, Hlog'.
    repeat split.
Qed.

End Tripping.

(** ** The adapter *)

Section Adapter.
Context {St : Type} `{Storage St}.

Import CircuitBreakerAdapter.

(** Installing a checker does not change what the state read sees. *)
Lemma state_after_install (f : FailureChecker) (w : World) :
  state (snd (add_failure_checker f w)) =
  (fst (state w), snd (add_failure_checker f (snd (state w)))).
Proof.
  destruct (Z.le_gt_cases (total_failures (snapshot w))
              (_failure_threshold (self w))) as [Hle | Hgt].
  - rewrite (state_within_threshold w Hle).
    now rewrite state_within_threshold.
  - rewrite (state_over_threshold w) by lia.
    rewrite state_over_threshold; [reflexivity |].
    unfold snapshot in *. cbn. lia.
Qed.

(** A send is a call after the adapter's checker has been installed. *)
Lemma send_run (super_send : Operation) (args : list PyValue)
    (kwargs : list (string * PyValue)) (w : World) :
  send super_send args kwargs w =
  __call__ super_send args kwargs
    (snd (add_failure_checker (fun r => Val (has_failure r)) w)).
Proof. reflexivity. Qed.

(** A send on a breaker that is not open: the transport runs, its outcome
    is classified by [has_failure], one bookkeeping method runs, and the
    outcome is handed back. *)
Lemma send_when_allowed (super_send : Operation) (args : list PyValue)
    (kwargs : list (string * PyValue)) (w w1 : World)
    (s : State.t) (v : PyValue) :
  state w = (Val s, w1) ->
  s <> State.open ->
  captured (super_send args kwargs) = Some v ->
  fst (send super_send args kwargs w) = handed_back v /\
  log (snd (send super_send args kwargs w)) =
    log w ++ [EvInvoke args kwargs;
              if has_failure v then EvIncrement else EvReset] /\
  _storage (self (snd (send super_send args kwargs w))) =
    (if has_failure v
     then increment_counter (Naive (next_reading w1)) (_storage (self w))
     else reset_counter (_storage (self w))).
Proof.
  intros Hst Hs Hcap.
  state_kept w Hst Hself Hlog.
  rewrite send_run.
  set (f := fun r => Val (has_failure r)).
  rewrite (call_when_allowed super_send args kwargs
             (snd (add_failure_checker f w))
             (snd (add_failure_checker f w1)) s v (has_failure v)); auto.
  - destruct (has_failure v); cbn; rewrite Hself, Hlog, <- app_assoc;
      repeat split.
  - rewrite state_after_install, Hst. reflexivity.
Qed.

(** Every send leaves the adapter's checker installed. *)
Lemma send_installs_checker (super_send : Operation) (args : list PyValue)
    (kwargs : list (string * PyValue)) (w : World) :
  _failure_checker (self (snd (send super_send args kwargs w))) =
  Some (fun r => Val (has_failure r)).
Proof.
  rewrite send_run.
  match goal with
  | |- context [__call__ ?f ?a ?k ?w0] =>
      destruct (call_preserves f a k w0) as (_ & Hchk & _)
  end.
  rewrite Hchk. reflexivity.
Qed.

(** C7 (as the code has it): the checker the adapter installs before a send
    takes [ConnectionError] to be the builtin class, so the exception with
    which the transport reports a connection failure, an instance of
    [requests.exceptions.ConnectionError], is classified as a success: the
    send re-raises it and the counter is reset, not incremented. *)
Theorem send_resets_on_requests_connection_error (super_send : Operation)
    (args : list PyValue) (kwargs : list (string * PyValue))
    (w w1 : World) (s : State.t) (e : PyExc) :
  state w = (Val s, w1) ->
  s <> State.open ->
  super_send args kwargs = Exn e ->
  exc_class e = RequestsConnectionError ->
  has_failure (VExc e) = false /\
  fst (send super_send args kwargs w) = Exn e /\
  log (snd (send super_send args kwargs w)) =
    log w ++ [EvInvoke args kwargs; EvReset] /\
  _storage (self (snd (send super_send args kwargs w))) =
    reset_counter (_storage (self w)).
Proof.
  intros Hst Hs Hsend Hclass.
  assert (Hfail : has_failure (VExc e) = false).
  { unfold has_failure, isinstance. rewrite Hclass. reflexivity. }
  assert (Hsub : issubclass (exc_class e) Exception = true)
    by (rewrite Hclass; reflexivity).
  destruct (send_when_allowed super_send args kwargs w w1 s (VExc e) Hst Hs)
    as (Hres & Hlog & Hsto).
  { unfold captured. rewrite Hsend, Hsub. reflexivity. }
  rewrite Hfail in Hlog, Hsto.
  split; [exact Hfail |]. split; [| split; assumption].
  rewrite Hres. unfold handed_back. cbn. rewrite Hsub. reflexivity.
Qed.

(** The outcomes the adapter does classify as the specification says: an
    instance of the builtin [ConnectionError] and a 503 response each
    record a failure, a 200 and a 404 response each reset the counter. *)
Lemma send_scenario_B (super_send : Operation) (args : list PyValue)
    (kwargs : list (string * PyValue)) (w w1 : World) (s : State.t) :
  state w = (Val s, w1) ->
  s <> State.open ->
  (forall e, super_send args kwargs = Exn e ->
             issubclass (exc_class e) ConnectionError = true ->
             log (snd (send super_send args kwargs w)) =
             log w ++ [EvInvoke args kwargs; EvIncrement]) /\
  (forall code, super_send args kwargs = Val (VResponse code) ->
                log (snd (send super_send args kwargs w)) =
                log w ++ [EvInvoke args kwargs;
                          if 500 <=? code then EvIncrement else EvReset]).
Proof.
  intros Hst Hs. split.
  - intros e Hsend Hsub.
    assert (Hexc : issubclass (exc_class e) Exception = true).
    { apply issubclass_mro. apply issubclass_mro in Hsub.
      destruct (exc_class e); cbn in Hsub |- *; intuition discriminate. }
    destruct (send_when_allowed super_send args kwargs w w1 s (VExc e) Hst Hs)
      as (_ & Hlog & _).
    { unfold captured. rewrite Hsend, Hexc. reflexivity. }
    rewrite Hlog. unfold has_failure, isinstance. rewrite Hsub. reflexivity.
  - intros code Hsend.
    destruct (send_when_allowed super_send args kwargs w w1 s
                (VResponse code) Hst Hs) as (_ & Hlog & _).
    { unfold captured. rewrite Hsend. reflexivity. }
    rewrite Hlog. unfold has_failure. cbn.
    rewrite Z.geb_leb. destruct (500 <=? code); reflexivity.
Qed.

End Adapter.

(** ** Concrete runs on the in-memory storage *)

Import MemoryStorage.

(** The three cases of the state read, on one stored counter each. *)
Lemma state_derivation_witness :
  fst (state (Sample.world (mkFailureCounter 101 (Some (Naive 5000))) None)) =
    Val State.half_open /\
  fst (state (Sample.world (mkFailureCounter 101 (Some (Naive 5))) None)) =
    Val State.open /\
  fst (state (Sample.world (mkFailureCounter 100 (Some (Naive 5))) None)) =
    Val State.closed.
Proof.
  split; [| split].
  - apply (state_derivation
             (Sample.world (mkFailureCounter 101 (Some (Naive 5000))) None) 5000);
      [reflexivity | reflexivity | vm_compute; discriminate].
  - apply (state_derivation
             (Sample.world (mkFailureCounter 101 (Some (Naive 5))) None) 5);
      reflexivity.
  - apply (state_derivation
             (Sample.world (mkFailureCounter 100 (Some (Naive 5))) None) 5).
    vm_compute; discriminate.
Defined.

(** A count of 101 with no recorded time: the state read raises. *)
Lemma state_type_error_without_timestamp_witness :
  (exists e,
     fst (state (Sample.world (mkFailureCounter 101 None) None)) = Exn e /\
     exc_class e = TypeError) /\
  (forall s, fst (state (Sample.world (mkFailureCounter 101 None) None)) <> Val s) /\
  clock_reads (snd (state (Sample.world (mkFailureCounter 101 None) None))) = 1%nat.
Proof.
  apply (state_type_error_without_timestamp
           (Sample.world (mkFailureCounter 101 None) None));
    reflexivity.
Defined.

(** An open breaker (101 failures, the last one before the current time)
    turning a call down. *)
Lemma open_call_raises_base_error_witness :
  exists e,
    fst (__call__ (Sample.returns (VInt 7)) [] []
           (Sample.world (mkFailureCounter 101 (Some (Naive 5))) None)) = Exn e /\
    exc_class e = CircuitBreakerError /\
    isinstance (VExc e) CircuitBreakerOpenedError = false /\
    invocation_count
      (log (snd (__call__ (Sample.returns (VInt 7)) [] []
                   (Sample.world (mkFailureCounter 101 (Some (Naive 5))) None)))) =
    0%nat.
Proof.
  apply (open_call_raises_base_error (Sample.returns (VInt 7)) [] []
           (Sample.world (mkFailureCounter 101 (Some (Naive 5))) None)).
  reflexivity.
Defined.

(** A [ValueError] raised by the operation comes out of the call. *)
Lemma call_reraises_same_error_witness :
  fst (__call__ (Sample.raises ValueError "boom") [] []
         (Sample.world (mkFailureCounter 3 (Some (Naive 5))) None)) =
    Exn (mkExc ValueError "boom") /\
  (issubclass ValueError Exception = true ->
   bookkeeping_count
     (log (snd (__call__ (Sample.raises ValueError "boom") [] []
                  (Sample.world (mkFailureCounter 3 (Some (Naive 5))) None)))) =
   1%nat) /\
  (issubclass ValueError Exception = false ->
   bookkeeping_count
     (log (snd (__call__ (Sample.raises ValueError "boom") [] []
                  (Sample.world (mkFailureCounter 3 (Some (Naive 5))) None)))) =
   0%nat).
Proof.
  apply (call_reraises_same_error (Sample.raises ValueError "boom") [] []
           (Sample.world (mkFailureCounter 3 (Some (Naive 5))) None)
           (Sample.world (mkFailureCounter 3 (Some (Naive 5))) None)
           State.closed (mkExc ValueError "boom")).
  - reflexivity.
  - discriminate.
  - reflexivity.
  - intros _. exists true. reflexivity.
Defined.

(** C5 as stated fails, in two ways.  With a checker that raises on the
    outcome, a closed breaker invokes the operation, the operation raises a
    [ValueError], and the call ends with the checker's [TypeError] instead:
    the operation's error is replaced, and no bookkeeping method has run.
    With the default checker and an operation raising [KeyboardInterrupt],
    the error is handed on, but no bookkeeping method runs before it. *)
Lemma operation_error_replaced_or_unrecorded :
  let w := Sample.world (mkFailureCounter 3 (Some (Naive 5)))
             (Some (fun _ => Exn (mkExc TypeError "bad outcome"))) in
  let run := __call__ (Sample.raises ValueError "boom") [] [] w in
  let w' := Sample.world (mkFailureCounter 3 (Some (Naive 5))) None in
  let run' := __call__ (Sample.raises KeyboardInterrupt "") [] [] w' in
  (fst (state w) = Val State.closed /\
   Sample.raises ValueError "boom" [] [] = Exn (mkExc ValueError "boom") /\
   invocation_count (log (snd run)) = S (invocation_count (log w)) /\
   fst run = Exn (mkExc TypeError "bad outcome") /\
   fst run <> Exn (mkExc ValueError "boom") /\
   bookkeeping_count (log (snd run)) = bookkeeping_count (log w)) /\
  (fst (state w') = Val State.closed /\
   invocation_count (log (snd run')) = S (invocation_count (log w')) /\
   fst run' = Exn (mkExc KeyboardInterrupt "") /\
   bookkeeping_count (log (snd run')) = bookkeeping_count (log w')).
Proof.
  cbv zeta. split.
  - split; [reflexivity |]. split; [reflexivity |]. split; [reflexivity |].
    split; [reflexivity |]. split; [| reflexivity].
    vm_compute. discriminate.
  - repeat split.
Qed.

(** A [ValueError] returned by the operation is raised by the call, and
    counted: 3 failures become 4. *)
Lemma returned_exception_is_raised_witness :
  fst (__call__ (Sample.returns (VExc (mkExc ValueError "boom"))) [] []
         (Sample.world (mkFailureCounter 3 (Some (Naive 5))) None)) =
    Exn (mkExc ValueError "boom") /\
  snapshot (snd (__call__ (Sample.returns (VExc (mkExc ValueError "boom"))) [] []
                   (Sample.world (mkFailureCounter 3 (Some (Naive 5))) None))) =
    mkFailureCounter 4 (Some (Naive 1000)).
Proof.
  destruct (returned_exception_is_raised
              (Sample.returns (VExc (mkExc ValueError "boom"))) [] []
              (Sample.world (mkFailureCounter 3 (Some (Naive 5))) None)
              (Sample.world (mkFailureCounter 3 (Some (Naive 5))) None)
              State.closed (mkExc ValueError "boom"))
    as (_ & Hres & _ & Hsto & _).
  - reflexivity.
  - discriminate.
  - reflexivity.
  - reflexivity.
  - reflexivity.
  - split; [exact Hres |]. unfold snapshot. rewrite Hsto. reflexivity.
Defined.

(** The default checker on a [ValueError]. *)
Lemma default_checker_iff_exception_witness :
  exists b,
    check_failure (VExc (mkExc ValueError "boom"))
      (Sample.world FailureCounter_default None) =
    (Val b, Sample.world FailureCounter_default None) /\
    (b = true <->
     exists e, VExc (mkExc ValueError "boom") = VExc e /\
               In Exception (mro (exc_class e))).
Proof.
  apply (default_checker_iff_exception
           (Sample.world FailureCounter_default None)
           (VExc (mkExc ValueError "boom"))).
  reflexivity.
Defined.

(** A single success clears three earlier failures. *)
Lemma call_runs_one_bookkeeping_witness :
  log (snd (__call__ (Sample.returns (VInt 7)) [] []
              (Sample.world (mkFailureCounter 3 (Some (Naive 5))) None))) =
    [EvInvoke [] []; EvReset] /\
  bookkeeping_count
    (log (snd (__call__ (Sample.returns (VInt 7)) [] []
                 (Sample.world (mkFailureCounter 3 (Some (Naive 5))) None)))) =
    1%nat /\
  snapshot (snd (__call__ (Sample.returns (VInt 7)) [] []
                   (Sample.world (mkFailureCounter 3 (Some (Naive 5))) None))) =
    mkFailureCounter 0 None.
Proof.
  apply (call_runs_one_bookkeeping (Sample.returns (VInt 7)) [] []
           (Sample.world (mkFailureCounter 3 (Some (Naive 5))) None)
           (Sample.world (mkFailureCounter 3 (Some (Naive 5))) None)
           State.closed (VInt 7) false).
  - reflexivity.
  - discriminate.
  - left. reflexivity.
  - reflexivity.
Defined.

(** C4 as stated fails: the breaker is closed, the default checker answers
    on every outcome, the operation is invoked and raises
    [KeyboardInterrupt]; the call ends with that exception and no
    bookkeeping method has run, the counter being as it was. *)
Lemma keyboard_interrupt_skips_bookkeeping :
  let w := Sample.world (mkFailureCounter 3 (Some (Naive 5))) None in
  let run := __call__ (Sample.raises KeyboardInterrupt "") [] [] w in
  fst (state w) = Val State.closed /\
  (forall v, exists b, active_checker (self w) v = Val b) /\
  invocation_count (log (snd run)) = S (invocation_count (log w)) /\
  fst run = Exn (mkExc KeyboardInterrupt "") /\
  bookkeeping_count (log (snd run)) <> S (bookkeeping_count (log w)) /\
  bookkeeping_count (log (snd run)) = bookkeeping_count (log w) /\
  snapshot (snd run) = snapshot w.
Proof.
  cbv zeta. repeat split.
  - intros v. eexists. reflexivity.
  - vm_compute. discriminate.
Qed.

(** C8 as stated fails: no call of the constructor yields a breaker whose
    threshold is, say, 5: the threshold is no input of [__init__]. *)
Lemma init_threshold_not_configurable :
  ~ exists (storage : MemoryStorage.t) (failure_checker : option FailureChecker),
      _failure_threshold (__init__ storage failure_checker) = 5.
Proof.
  intros (storage & failure_checker & Hthr). cbn in Hthr. discriminate Hthr.
Qed.

(** The transport failing to connect through an adapter whose breaker has
    counted three failures: the counter is back to zero. *)
Lemma send_resets_on_requests_connection_error_witness :
  CircuitBreakerAdapter.has_failure
    (VExc (mkExc RequestsConnectionError "connection refused")) = false /\
  fst (CircuitBreakerAdapter.send
         (Sample.raises RequestsConnectionError "connection refused") [] []
         (Sample.world (mkFailureCounter 3 (Some (Naive 5))) None)) =
    Exn (mkExc RequestsConnectionError "connection refused") /\
  log (snd (CircuitBreakerAdapter.send
              (Sample.raises RequestsConnectionError "connection refused") [] []
              (Sample.world (mkFailureCounter 3 (Some (Naive 5))) None))) =
    [EvInvoke [] []; EvReset] /\
  _storage (self (snd (CircuitBreakerAdapter.send
              (Sample.raises RequestsConnectionError "connection refused") [] []
              (Sample.world (mkFailureCounter 3 (Some (Naive 5))) None)))) =
    mkFailureCounter 0 None.
Proof.
  assert (Hs : State.closed <> State.open) by discriminate.
  exact (send_resets_on_requests_connection_error
           (Sample.raises RequestsConnectionError "connection refused") [] []
           (Sample.world (mkFailureCounter 3 (Some (Naive 5))) None)
           (Sample.world (mkFailureCounter 3 (Some (Naive 5))) None)
           State.closed (mkExc RequestsConnectionError "connection refused")
           eq_refl Hs eq_refl eq_refl).
Defined.

(** Scenario A on the in-memory storage with a clock that advances by one
    microsecond per reading. *)
Lemma scenario_A_denial_is_base_error_witness :
  let w := Sample.world FailureCounter_default (Some Sample.always_failure) in
  let run := call_repeatedly 101 (Sample.raises ValueError "boom") [] [] w in
  total_failures (snapshot (snd run)) = 101 /\
  invocation_count (log (snd run)) = 101%nat /\
  exists e',
    fst (__call__ (Sample.raises ValueError "boom") [] [] (snd run)) = Exn e' /\
    exc_class e' = CircuitBreakerError /\
    isinstance (VExc e') CircuitBreakerOpenedError = false /\
    invocation_count
      (log (snd (__call__ (Sample.raises ValueError "boom") [] [] (snd run)))) =
    invocation_count (log (snd run)).
Proof.
  intros w run.
  assert (Hzero : failure_counter MemoryStorage.new = FailureCounter_default)
    by reflexivity.
  destruct (scenario_A_denial_is_base_error
              (Sample.raises ValueError "boom") (mkExc ValueError "boom")
              Sample.always_failure [] []
              (fun _ _ => eq_refl) eq_refl (fun _ => eq_refl)
              w MemoryStorage.new eq_refl Hzero)
    as (_ & _ & Hcount & Htotal & Hdenied).
  split; [exact Htotal |]. split; [exact Hcount |].
  apply (Hdenied 1100).
  - vm_compute. reflexivity.
  - vm_compute. reflexivity.
Defined.

(** * Further properties of the breaker *)

(** ** Every way a call can go *)

Section CallShapes.
Context {St : Type} `{Storage St}.

(** The five ways through lines 80-96: the state read raises; the breaker
    is open; the operation raises outside [Exception]; the checker raises;
    or the outcome is classified and one bookkeeping method runs. *)
Lemma call_cases (func : Operation) (func_args : list PyValue)
    (func_kwargs : list (string * PyValue)) (w : World) :
  let w1 := snd (state w) in
  let invoked := snd (emit (EvInvoke func_args func_kwargs) w1) in
  (exists e,
     fst (state w) = Exn e /\
     __call__ func func_args func_kwargs w = (Exn e, w1)) \/
  (fst (state w) = Val State.open /\
   __call__ func func_args func_kwargs w =
   (Exn (mkExc CircuitBreakerError ""), w1)) \/
  (exists s e,
     fst (state w) = Val s /\ s <> State.open /\
     func func_args func_kwargs = Exn e /\
     issubclass (exc_class e) Exception = false /\
     __call__ func func_args func_kwargs w = (Exn e, invoked)) \/
  (exists s v e,
     fst (state w) = Val s /\ s <> State.open /\
     captured (func func_args func_kwargs) = Some v /\
     active_checker (self w) v = Exn e /\
     __call__ func func_args func_kwargs w = (Exn e, invoked)) \/
  (exists s v b,
     fst (state w) = Val s /\ s <> State.open /\
     captured (func func_args func_kwargs) = Some v /\
     active_checker (self w) v = Val b /\
     __call__ func func_args func_kwargs w =
     (handed_back v, snd ((if b then record_failure else reset) invoked))).
Proof.
  cbv zeta.
  destruct (state w) as [[s | e] w1] eqn:Hst; cbn [fst snd].
  - destruct (State.eqb s State.open) eqn:Hopen.
    + destruct s; try discriminate.
      right; left. split; [reflexivity |]. now apply call_when_open.
    + assert (Hs : s <> State.open) by (intros ->; discriminate).
      destruct (captured (func func_args func_kwargs)) as [v |] eqn:Hcap.
      * destruct (active_checker (self w) v) as [b | e] eqn:Hchk.
        -- do 4 right. exists s, v, b. repeat split; auto.
           now apply (call_when_allowed _ _ _ w w1 s v b).
        -- do 3 right; left. exists s, v, e. repeat split; auto.
           now apply (call_when_checker_raises _ _ _ w w1 s v e).
      * unfold captured in Hcap.
        destruct (func func_args func_kwargs) as [v | e] eqn:Hf;
          [discriminate |].
        destruct (issubclass (exc_class e) Exception) eqn:Hsub;
          [discriminate |].
        do 2 right; left. exists s, e. repeat split; auto.
        now apply (call_when_not_caught _ _ _ w w1 s e).
  - left. exists e. split; [reflexivity |]. now apply call_when_state_raises.
Qed.

End CallShapes.

(** Exposes the fields of the world a bookkeeping method or an invocation
    leaves, without unfolding the state read. *)
Ltac log_of_run :=
  rewrite ?record_failure_run, ?reset_run; unfold emit;
  cbn [fst snd self clock clock_reads log
       _storage _failure_threshold _failure_checker].

Section CallNever.
Context {St : Type} `{Storage St}.

(** X1: whatever the state, the operation and the checker, one call adds to
    the log of events nothing, or one invocation of the operation, or one
    invocation followed by exactly one bookkeeping method: the operation is
    never invoked twice, and the storage is never touched unless the
    operation has just been invoked. *)
Theorem call_never_retries (func : Operation) (func_args : list PyValue)
    (func_kwargs : list (string * PyValue)) (w : World) :
  exists l,
    log (snd (__call__ func func_args func_kwargs w)) = log w ++ l /\
    (l = [] \/
     l = [EvInvoke func_args func_kwargs] \/
     l = [EvInvoke func_args func_kwargs; EvIncrement] \/
     l = [EvInvoke func_args func_kwargs; EvReset]).
Proof.
  pose proof (state_preserves w) as (_ & Hlog & _).
  destruct (call_cases func func_args func_kwargs w)
    as [(e & _ & ->) | [(_ & ->) | [(s & e & _ & _ & _ & _ & ->)
       | [(s & v & e & _ & _ & _ & _ & ->) | (s & v & b & _ & _ & _ & _ & ->)]]]];
    cbn [fst snd].
  - exists []. rewrite app_nil_r. auto.
  - exists []. rewrite app_nil_r. auto.
  - exists [EvInvoke func_args func_kwargs]. log_of_run. rewrite Hlog. auto.
  - exists [EvInvoke func_args func_kwargs]. log_of_run. rewrite Hlog. auto.
  - destruct b; log_of_run; rewrite Hlog, <- app_assoc.
    + exists [EvInvoke func_args func_kwargs; EvIncrement]. auto.
    + exists [EvInvoke func_args func_kwargs; EvReset]. auto.
Qed.

(** X2: a call returns normally only with the very value the operation
    returned, that value not being an [Exception] instance, and after the
    operation and one bookkeeping method have run: an error of the
    operation, a denial or a failure of the checker is never turned into a
    normal return. *)
Theorem normal_return_is_operation_value (func : Operation)
    (func_args : list PyValue) (func_kwargs : list (string * PyValue))
    (w : World) (v : PyValue) :
  fst (__call__ func func_args func_kwargs w) = Val v ->
  func func_args func_kwargs = Val v /\
  isinstance v Exception = false /\
  exists b,
    active_checker (self w) v = Val b /\
    log (snd (__call__ func func_args func_kwargs w)) =
    log w ++ [EvInvoke func_args func_kwargs;
              if b then EvIncrement else EvReset].
Proof.
  intros Hret.
  pose proof (state_preserves w) as (_ & Hlog & _).
  destruct (call_cases func func_args func_kwargs w)
    as [(e & _ & Hc) | [(_ & Hc) | [(s & e & _ & _ & _ & _ & Hc)
       | [(s & v0 & e & _ & _ & _ & _ & Hc)
         | (s & v0 & b & _ & _ & Hcap & Hchk & Hc)]]]];
    rewrite Hc in Hret |- *; cbn [fst snd] in Hret |- *; try discriminate Hret.
  unfold handed_back in Hret.
  destruct (isinstance v0 Exception) eqn:Hinst.
  - destruct v0; discriminate Hret.
  - injection Hret as ->.
    assert (Hf : func func_args func_kwargs = Val v).
    { unfold captured in Hcap.
      destruct (func func_args func_kwargs) as [v1 | e1].
      - now injection Hcap as ->.
      - destruct (issubclass (exc_class e1) Exception) eqn:Hsub;
          [| discriminate].
        injection Hcap as <-. cbn in Hinst. congruence. }
    repeat split; auto. exists b. split; [exact Hchk |].
    destruct b; log_of_run; rewrite Hlog, <- app_assoc; reflexivity.
Qed.

(** X3: when the breaker is not open and the checker raises on the outcome
    of the operation, the call ends with the checker's exception: an error
    raised by the operation is lost, the operation has been invoked, and no
    bookkeeping method runs, the storage being left as it was. *)
Theorem checker_error_preempts_outcome (func : Operation)
    (func_args : list PyValue) (func_kwargs : list (string * PyValue))
    (w w1 : World) (s : State.t) (v : PyValue) (e' : PyExc) :
  state w = (Val s, w1) ->
  s <> State.open ->
  (func func_args func_kwargs = Val v \/
   exists e, func func_args func_kwargs = Exn e /\
             issubclass (exc_class e) Exception = true /\ v = VExc e) ->
  active_checker (self w) v = Exn e' ->
  fst (__call__ func func_args func_kwargs w) = Exn e' /\
  log (snd (__call__ func func_args func_kwargs w)) =
    log w ++ [EvInvoke func_args func_kwargs] /\
  self (snd (__call__ func func_args func_kwargs w)) = self w.
Proof.
  intros Hst Hs Hout Hchk.
  state_kept w Hst Hself Hlog.
  assert (Hcap : captured (func func_args func_kwargs) = Some v).
  { destruct Hout as [Hv | (e & He & Hsub & ->)]; unfold captured.
    - rewrite Hv. reflexivity.
    - rewrite He, Hsub. reflexivity. }
  rewrite (call_when_checker_raises func func_args func_kwargs w w1 s v e');
    auto.
  cbn. rewrite Hself, Hlog. auto.
Qed.

End CallNever.

(** ** Staying open, and failing to read the state *)

Section Denial.
Context {St : Type} `{Storage St}.

(** Calls in a row on a breaker that is open and whose clock stays past
    the last failure time: each is turned down and changes nothing. *)
Lemma open_calls_all_denied (func : Operation)
    (func_args : list PyValue) (func_kwargs : list (string * PyValue))
    (t : Z) (n : nat) :
  forall w : World,
    total_failures (snapshot w) > _failure_threshold (self w) ->
    last_failure_dt (snapshot w) = Some (Naive t) ->
    (forall i, (clock_reads w <= i)%nat -> t < clock w i) ->
    fst (call_repeatedly n func func_args func_kwargs w) =
      repeat (Exn (mkExc CircuitBreakerError "")) n /\
    log (snd (call_repeatedly n func func_args func_kwargs w)) = log w /\
    self (snd (call_repeatedly n func func_args func_kwargs w)) = self w.
Proof.
  induction n as [| n IH]; intros w Hgt Hlast Hlater.
  - cbn. auto.
  - cbn [call_repeatedly].
    assert (Hst : state w =
                  (Val State.open,
                   {| self := self w; clock := clock w;
                      clock_reads := S (clock_reads w); log := log w |})).
    { rewrite (state_over_threshold w Hgt), Hlast. cbn.
      specialize (Hlater (clock_reads w) (Nat.le_refl _)).
      unfold next_reading.
      destruct (Z.leb_spec (clock w (clock_reads w)) t); [lia | reflexivity]. }
    rewrite (call_when_open _ _ _ _ _ Hst).
    match goal with
    | |- context [call_repeatedly n _ _ _ ?w1] => specialize (IH w1)
    end.
    destruct IH as (Hres & Hlog & Hself); auto.
    { intros i Hi. apply Hlater. cbn in Hi. lia. }
    destruct (call_repeatedly n func func_args func_kwargs _) as [rs w'].
    cbn in Hres, Hlog, Hself |- *. rewrite Hres. auto.
Qed.

(** X4: the breaker has no cool-down.  Once the count exceeds the threshold
    and the clock, from now on, reads later than the last failure time,
    any number of calls in a row are all turned down with a
    [CircuitBreakerError]: the operation is never invoked and the breaker
    and its storage stay as they are, so nothing but a [reset] from outside
    lets a call through again. *)
Theorem open_breaker_stays_open (func : Operation)
    (func_args : list PyValue) (func_kwargs : list (string * PyValue))
    (t : Z) (n : nat) (w : World) :
  total_failures (snapshot w) > _failure_threshold (self w) ->
  last_failure_dt (snapshot w) = Some (Naive t) ->
  (forall i, (clock_reads w <= i)%nat -> t < clock w i) ->
  fst (call_repeatedly n func func_args func_kwargs w) =
    repeat (Exn (mkExc CircuitBreakerError "")) n /\
  invocation_count (log (snd (call_repeatedly n func func_args func_kwargs w))) =
    invocation_count (log w) /\
  log (snd (call_repeatedly n func func_args func_kwargs w)) = log w /\
  self (snd (call_repeatedly n func func_args func_kwargs w)) = self w.
Proof.
  intros Hgt Hlast Hlater.
  destruct (open_calls_all_denied func func_args func_kwargs t n w
              Hgt Hlast Hlater) as (Hres & Hlog & Hself).
  rewrite Hlog. auto.
Qed.

(** X8: a storage that hands back a timezone-aware time of last failure
    breaks the breaker once the count exceeds the threshold: the state read
    compares it with the naive [utcnow()] and raises [TypeError], and so
    does every call, without invoking the operation or touching the
    storage. *)
Theorem aware_timestamp_breaks_calls (func : Operation)
    (func_args : list PyValue) (func_kwargs : list (string * PyValue))
    (w : World) (t offset : Z) :
  total_failures (snapshot w) > _failure_threshold (self w) ->
  last_failure_dt (snapshot w) = Some (Aware t offset) ->
  exists e,
    exc_class e = TypeError /\
    fst (state w) = Exn e /\
    fst (__call__ func func_args func_kwargs w) = Exn e /\
    log (snd (__call__ func func_args func_kwargs w)) = log w /\
    self (snd (__call__ func func_args func_kwargs w)) = self w.
Proof.
  intros Hgt Hlast.
  pose proof (state_over_threshold w Hgt) as Hst.
  rewrite Hlast in Hst.
  unfold optional_datetime_ge, datetime_ge in Hst. cbv beta iota in Hst.
  eexists. split; [| split; [rewrite Hst; reflexivity |]].
  - reflexivity.
  - rewrite (call_when_state_raises _ _ _ _ _ _ Hst). cbn. auto.
Qed.

(** A call on a breaker that is not open starts by invoking the
    operation. *)
Lemma allowed_call_invokes (func : Operation) (func_args : list PyValue)
    (func_kwargs : list (string * PyValue)) (w : World) (s : State.t) :
  fst (state w) = Val s ->
  s <> State.open ->
  exists l,
    log (snd (__call__ func func_args func_kwargs w)) =
    log w ++ EvInvoke func_args func_kwargs :: l.
Proof.
  intros Hst Hs.
  pose proof (state_preserves w) as (_ & Hlog & _).
  destruct (call_cases func func_args func_kwargs w)
    as [(e & He & _) | [(Hopen & _) | [(s1 & e & _ & _ & _ & _ & ->)
       | [(s1 & v & e & _ & _ & _ & _ & ->) | (s1 & v & b & _ & _ & _ & _ & ->)]]]].
  - congruence.
  - congruence.
  - exists []. log_of_run. now rewrite Hlog.
  - exists []. log_of_run. now rewrite Hlog.
  - destruct b; log_of_run; rewrite Hlog, <- app_assoc; eexists; reflexivity.
Qed.

End Denial.

(** ** Recovering, tripping and the clock *)

Section Recovery.
Context {St : Type} `{StorageLaws St}.

(** After a reset the storage holds the zeroed counter. *)
Lemma reset_snapshot (w : World) :
  snapshot (snd (reset w)) = {| total_failures := 0; last_failure_dt := None |}.
Proof. unfold snapshot. log_of_run. apply reset_counter_spec. Qed.

(** After a recorded failure the count is one more and the time is the
    reading the clock gave. *)
Lemma record_failure_snapshot (w : World) :
  snapshot (snd (record_failure w)) =
  {| total_failures := total_failures (snapshot w) + 1;
     last_failure_dt := Some (Naive (next_reading w)) |}.
Proof. unfold snapshot. log_of_run. apply increment_counter_spec. Qed.

(** X5: with a threshold that is not negative (the constructor sets 100),
    the [reset] method closes the breaker whatever its state was: the
    counter is zeroed, the next state read is [closed] without a look at
    the clock, and the next call invokes the operation. *)
Theorem reset_closes_breaker (w : World) :
  0 <= _failure_threshold (self w) ->
  snapshot (snd (reset w)) = FailureCounter_default /\
  state (snd (reset w)) = (Val State.closed, snd (reset w)) /\
  (forall func func_args func_kwargs,
     exists l,
       log (snd (__call__ func func_args func_kwargs (snd (reset w)))) =
       log w ++ EvReset :: EvInvoke func_args func_kwargs :: l).
Proof.
  intros Hthr.
  assert (Hclosed : state (snd (reset w)) = (Val State.closed, snd (reset w))).
  { apply state_within_threshold. rewrite reset_snapshot. cbn. exact Hthr. }
  split; [apply reset_snapshot | split; [exact Hclosed |]].
  intros func func_args func_kwargs.
  destruct (allowed_call_invokes func func_args func_kwargs (snd (reset w))
              State.closed) as [l Hl].
  - rewrite Hclosed. reflexivity.
  - discriminate.
  - exists l. rewrite Hl. log_of_run. now rewrite <- app_assoc.
Qed.

(** X11: one call classified as a success closes the breaker, also from
    [half_open] with a count above the threshold: after it the state read
    is [closed] (threshold not negative). *)
Theorem success_closes_breaker (func : Operation)
    (func_args : list PyValue) (func_kwargs : list (string * PyValue))
    (w w1 : World) (s : State.t) (v : PyValue) :
  0 <= _failure_threshold (self w) ->
  state w = (Val s, w1) ->
  s <> State.open ->
  (func func_args func_kwargs = Val v \/
   exists e, func func_args func_kwargs = Exn e /\
             issubclass (exc_class e) Exception = true /\ v = VExc e) ->
  active_checker (self w) v = Val false ->
  fst (state (snd (__call__ func func_args func_kwargs w))) = Val State.closed.
Proof.
  intros Hthr Hst Hs Hout Hchk.
  state_kept w Hst Hself Hlog.
  assert (Hcap : captured (func func_args func_kwargs) = Some v).
  { destruct Hout as [Hv | (e & He & Hsub & ->)]; unfold captured.
    - rewrite Hv. reflexivity.
    - rewrite He, Hsub. reflexivity. }
  rewrite (call_when_allowed func func_args func_kwargs w w1 s v false); auto.
  cbn [snd]. rewrite state_within_threshold; [reflexivity |].
  rewrite reset_snapshot. log_of_run. rewrite Hself. exact Hthr.
Qed.

(** [n] recorded failures in a row add [n] to the count, leave the
    threshold alone and, if there was one at least, leave a naive time of
    last failure. *)
Lemma record_failures_run (n : nat) :
  forall w : World,
    let w' := Client.perform_all (repeat Client.RecordFailure n) w in
    total_failures (snapshot w') = total_failures (snapshot w) + Z.of_nat n /\
    _failure_threshold (self w') = _failure_threshold (self w) /\
    ((0 < n)%nat -> exists t, last_failure_dt (snapshot w') = Some (Naive t)).
Proof.
  induction n as [| n IH]; intros w; cbv zeta.
  - cbn [repeat Client.perform_all]. repeat split; [lia | lia].
  - cbn [repeat Client.perform_all Client.perform].
    specialize (IH (snd (record_failure w))). cbv zeta in IH.
    destruct IH as (Htf & Hthr & Hlast).
    rewrite record_failure_snapshot in Htf. cbn [total_failures] in Htf.
    repeat split.
    + lia.
    + rewrite Hthr. log_of_run. reflexivity.
    + intros _. destruct n as [| m].
      * cbn [repeat Client.perform_all]. rewrite record_failure_snapshot.
        eexists. reflexivity.
      * apply Hlast. lia.
Qed.

(** X6: the breaker trips strictly above the threshold.  Starting from a
    count of zero, after [n] recorded failures the count is [n]; the state
    read is [closed] as long as [n] is at most the threshold (with the
    constructor's 100: up to and including the 100th failure), and [open]
    or [half_open] from the next failure on. *)
Theorem failures_trip_above_threshold (n : nat) (w : World) :
  total_failures (snapshot w) = 0 ->
  let w' := Client.perform_all (repeat Client.RecordFailure n) w in
  total_failures (snapshot w') = Z.of_nat n /\
  (Z.of_nat n <= _failure_threshold (self w) ->
   fst (state w') = Val State.closed) /\
  (Z.of_nat n > _failure_threshold (self w) -> (0 < n)%nat ->
   fst (state w') = Val State.open \/ fst (state w') = Val State.half_open).
Proof.
  intros Hzero. cbv zeta.
  destruct (record_failures_run n w) as (Htf & Hthr & Hlast).
  rewrite Hzero in Htf. cbn in Htf.
  split; [exact Htf | split].
  - intros Hle. rewrite state_within_threshold; [reflexivity |].
    rewrite Htf, Hthr. exact Hle.
  - intros Hgt Hpos. destruct (Hlast Hpos) as [t Ht].
    rewrite state_over_threshold by (rewrite Htf, Hthr; exact Hgt).
    rewrite Ht. cbn. destruct (_ <=? t); auto.
Qed.

End Recovery.

Section ClockAndInvariant.
Context {St : Type} `{StorageLaws St}.

(** X7: with a clock whose readings strictly increase, a failure recorded
    by the breaker never leaves it [half_open]: at any later clock reading
    the time of last failure is already in the past, so the state read
    gives [open] above the threshold and [closed] otherwise. *)
Theorem recorded_failure_never_half_open (w w2 : World) :
  (forall i j, (i < j)%nat -> clock w i < clock w j) ->
  _storage (self w2) = _storage (self (snd (record_failure w))) ->
  clock w2 = clock w ->
  (clock_reads w < clock_reads w2)%nat ->
  fst (state w2) <> Val State.half_open /\
  (total_failures (snapshot w) + 1 > _failure_threshold (self w2) ->
   fst (state w2) = Val State.open).
Proof.
  intros Hmono Hsto Hclock Hlater.
  assert (Hsnap : snapshot w2 =
                  {| total_failures := total_failures (snapshot w) + 1;
                     last_failure_dt := Some (Naive (next_reading w)) |}).
  { unfold snapshot at 1. rewrite Hsto. apply record_failure_snapshot. }
  assert (Hopen : total_failures (snapshot w2) > _failure_threshold (self w2) ->
                  fst (state w2) = Val State.open).
  { intros Hgt. rewrite (state_over_threshold w2 Hgt), Hsnap. cbn.
    unfold next_reading. rewrite Hclock.
    specialize (Hmono _ _ Hlater).
    destruct (Z.leb_spec (clock w (clock_reads w2)) (clock w (clock_reads w)));
      [lia | reflexivity]. }
  split.
  - destruct (Z.le_gt_cases (total_failures (snapshot w2))
                (_failure_threshold (self w2))) as [Hle | Hgt].
    + rewrite (state_within_threshold w2 Hle). discriminate.
    + rewrite (Hopen ltac:(lia)). discriminate.
  - intros Hgt. apply Hopen. rewrite Hsnap. exact Hgt.
Qed.

(** One action keeps the threshold, and leaves the stored counter stamped
    if it was. *)
Lemma perform_keeps_stamped (a : Client.Action) (w : World) :
  Client.stamped (snapshot w) ->
  Client.stamped (snapshot (Client.perform a w)) /\
  _failure_threshold (self (Client.perform a w)) = _failure_threshold (self w).
Proof.
  intros Hinv.
  assert (Hreset : forall w0 : World, Client.stamped (snapshot (snd (reset w0)))).
  { intros w0. rewrite reset_snapshot. intros Hpos. cbn in Hpos. lia. }
  assert (Hrecord : forall w0 : World,
             Client.stamped (snapshot (snd (record_failure w0)))).
  { intros w0. rewrite record_failure_snapshot. intros _. eexists. reflexivity. }
  assert (Hcall : forall func func_args func_kwargs (w0 : World),
             Client.stamped (snapshot w0) ->
             Client.stamped (snapshot (snd (__call__ func func_args func_kwargs w0)))).
  { intros func func_args func_kwargs w0 Hinv0.
    pose proof (state_preserves w0) as (Hself & _).
    assert (Hsame : forall wx : World, self wx = self w0 ->
                                       Client.stamped (snapshot wx)).
    { intros wx Hx. unfold snapshot. rewrite Hx. exact Hinv0. }
    destruct (call_cases func func_args func_kwargs w0)
      as [(e & _ & ->) | [(_ & ->) | [(s & e & _ & _ & _ & _ & ->)
         | [(s & v & e & _ & _ & _ & _ & ->)
           | (s & v & b & _ & _ & _ & _ & ->)]]]]; cbn [snd].
    - now apply Hsame.
    - now apply Hsame.
    - apply Hsame. log_of_run. exact Hself.
    - apply Hsame. log_of_run. exact Hself.
    - destruct b; [apply Hrecord | apply Hreset]. }
  destruct a as [func func_args func_kwargs | super_send args kwargs
                | | | f |]; cbn [Client.perform].
  - split; [now apply Hcall | apply (call_preserves func func_args func_kwargs w)].
  - rewrite send_run. split.
    + apply Hcall. exact Hinv.
    + match goal with
      | |- context [__call__ ?f ?a ?k ?w0] =>
          destruct (call_preserves f a k w0) as (-> & _)
      end.
      reflexivity.
  - split; [apply Hreset | reflexivity].
  - split; [apply Hrecord | reflexivity].
  - split; [exact Hinv | reflexivity].
  - pose proof (state_preserves w) as (Hself & _).
    split; [unfold snapshot; rewrite Hself; exact Hinv | now rewrite Hself].
Qed.

(** X10: whatever a client does with a breaker and its adapter (calls with
    any operations, sends, resets, recorded failures, checkers installed,
    state reads), in any order and whether each step returns or raises,
    a counter that started stamped (a zeroed one is) stays stamped and the
    threshold stays what it was; so, the threshold not being negative, the
    state read never fails with a [TypeError] afterwards. *)
Theorem client_program_keeps_state_readable (l : list Client.Action) :
  forall w : World,
    0 <= _failure_threshold (self w) ->
    Client.stamped (snapshot w) ->
    Client.stamped (snapshot (Client.perform_all l w)) /\
    _failure_threshold (self (Client.perform_all l w)) =
      _failure_threshold (self w) /\
    exists s, fst (state (Client.perform_all l w)) = Val s.
Proof.
  induction l as [| a l IH]; intros w Hthr Hinv; cbn [Client.perform_all].
  - repeat split; auto. now apply state_total_under_invariant.
  - destruct (perform_keeps_stamped a w Hinv) as (Hinv' & Hthr').
    destruct (IH (Client.perform a w)) as (Hfin & Hthr'' & Hstate); auto.
    + rewrite Hthr'. exact Hthr.
    + repeat split; auto. now rewrite Hthr''.
Qed.

End ClockAndInvariant.

Section AdapterChecker.
Context {St : Type} `{Storage St}.

(** X9: a send leaves the adapter's [has_failure] installed in the breaker,
    whatever checker the breaker was built with or given before: from then
    on [check_failure] answers with [has_failure] on every outcome, for
    direct calls of the breaker as well. *)
Theorem send_overrides_checker (super_send : Operation)
    (args : list PyValue) (kwargs : list (string * PyValue))
    (w : World) (v : PyValue) :
  check_failure v (snd (CircuitBreakerAdapter.send super_send args kwargs w)) =
  (Val (CircuitBreakerAdapter.has_failure v),
   snd (CircuitBreakerAdapter.send super_send args kwargs w)).
Proof.
  unfold check_failure, bind, get_self, lift, active_checker.
  rewrite (send_installs_checker super_send args kwargs w). reflexivity.
Qed.

End AdapterChecker.

(** ** From the first failure to a breaker that stays open *)

Section NoRecovery.
Context {St : Type} `{StorageLaws St}.

Variable func : Operation.
Variable e : PyExc.
Variable chk : FailureChecker.
Variable func_args : list PyValue.
Variable func_kwargs : list (string * PyValue).

Hypothesis func_raises : forall a k, func a k = Exn e.
Hypothesis e_is_Exception : issubclass (exc_class e) Exception = true.
Hypothesis chk_reports_failure : forall v, chk v = Val true.

(** X13: a breaker as the constructor builds it, over a zeroed counter, with
    an operation that keeps raising, a checker that reports every outcome
    as a failure and a clock whose readings strictly increase, never
    recovers by itself: the first 101 calls invoke the operation, and of
    any number of calls after them every one is turned down, the operation
    having been invoked 101 times in all. *)
Theorem tripped_breaker_never_recovers (w : World) (storage : St) (m : nat) :
  self w = __init__ storage (Some chk) ->
  failure_counter storage = FailureCounter_default ->
  (forall i j, (i < j)%nat -> clock w i < clock w j) ->
  let tripped := snd (call_repeatedly 101 func func_args func_kwargs w) in
  let later := call_repeatedly m func func_args func_kwargs tripped in
  fst later = repeat (Exn (mkExc CircuitBreakerError "")) m /\
  invocation_count (log (snd later)) = (invocation_count (log w) + 101)%nat /\
  total_failures (snapshot (snd later)) = 101.
Proof.
  intros Hself Hzero Hmono. cbv zeta.
  assert (Hchk : _failure_checker (self w) = Some chk)
    by (rewrite Hself; reflexivity).
  assert (Hthr : _failure_threshold (self w) = 100)
    by (rewrite Hself; reflexivity).
  assert (Htf0 : total_failures (snapshot w) = 0).
  { unfold snapshot. rewrite Hself. unfold __init__, _storage.
    rewrite Hzero. reflexivity. }
  pose proof (failing_calls_accumulate func e chk func_args func_kwargs
                func_raises e_is_Exception chk_reports_failure 101 w Hchk)
    as Hacc.
  cbv zeta in Hacc.
  remember (call_repeatedly 101 func func_args func_kwargs w) as run eqn:Hrun.
  destruct Hacc as (_ & Htf & Hlog & Hthr' & _ & Hclock & Hreads & Hlast).
  { rewrite Htf0, Hthr. lia. }
  rewrite Htf0 in Htf. change (0 + Z.of_nat 101) with 101 in Htf.
  specialize (Hlast 100%nat eq_refl).
  destruct (open_calls_all_denied func func_args func_kwargs
              (clock w (clock_reads w + 100)%nat) m (snd run))
    as (Hres & Hlog' & Hself').
  - rewrite Htf, Hthr', Hthr. lia.
  - exact Hlast.
  - intros i Hi. rewrite Hclock. apply Hmono. lia.
  - split; [exact Hres | split].
    + rewrite Hlog', Hlog. apply invocation_count_rounds.
    + unfold snapshot in Htf |- *. rewrite Hself'. exact Htf.
Qed.

End NoRecovery.

(** ** Concrete runs for the further properties *)

(** A success returned as it is. *)
Lemma normal_return_is_operation_value_witness :
  Sample.returns (VInt 7) [] [] = Val (VInt 7) /\
  isinstance (VInt 7) Exception = false /\
  exists b,
    active_checker
      (self (Sample.world (mkFailureCounter 3 (Some (Naive 5))) None))
      (VInt 7) = Val b /\
    log (snd (__call__ (Sample.returns (VInt 7)) [] []
                (Sample.world (mkFailureCounter 3 (Some (Naive 5))) None))) =
    log (Sample.world (mkFailureCounter 3 (Some (Naive 5))) None) ++
    [EvInvoke [] []; if b then EvIncrement else EvReset].
Proof.
  apply (normal_return_is_operation_value (Sample.returns (VInt 7)) [] []
           (Sample.world (mkFailureCounter 3 (Some (Naive 5))) None) (VInt 7)).
  reflexivity.
Defined.

(** A checker that raises [TypeError] on every outcome, and an operation
    raising [ValueError]: the caller gets the [TypeError]. *)
Lemma checker_error_preempts_outcome_witness :
  let w := Sample.world (mkFailureCounter 3 (Some (Naive 5)))
             (Some (fun _ => Exn (mkExc TypeError "bad outcome"))) in
  fst (__call__ (Sample.raises ValueError "boom") [] [] w) =
    Exn (mkExc TypeError "bad outcome") /\
  log (snd (__call__ (Sample.raises ValueError "boom") [] [] w)) =
    log w ++ [EvInvoke [] []] /\
  self (snd (__call__ (Sample.raises ValueError "boom") [] [] w)) = self w.
Proof.
  intros w.
  apply (checker_error_preempts_outcome (Sample.raises ValueError "boom")
           [] [] w w State.closed (VExc (mkExc ValueError "boom"))
           (mkExc TypeError "bad outcome")).
  - reflexivity.
  - discriminate.
  - right. exists (mkExc ValueError "boom"). repeat split.
  - reflexivity.
Defined.

(** Three calls on a breaker open since before the clock started. *)
Lemma open_breaker_stays_open_witness :
  let w := Sample.world (mkFailureCounter 101 (Some (Naive 5))) None in
  fst (call_repeatedly 3 (Sample.returns (VInt 7)) [] [] w) =
    repeat (Exn (mkExc CircuitBreakerError "")) 3 /\
  invocation_count
    (log (snd (call_repeatedly 3 (Sample.returns (VInt 7)) [] [] w))) =
    invocation_count (log w) /\
  log (snd (call_repeatedly 3 (Sample.returns (VInt 7)) [] [] w)) = log w /\
  self (snd (call_repeatedly 3 (Sample.returns (VInt 7)) [] [] w)) = self w.
Proof.
  intros w.
  apply (open_breaker_stays_open (Sample.returns (VInt 7)) [] [] 5 3 w).
  - reflexivity.
  - reflexivity.
  - intros i _. unfold w, Sample.world, clock, Sample.ticking. lia.
Defined.

(** A count of 101 with a timezone-aware time of last failure. *)
Lemma aware_timestamp_breaks_calls_witness :
  let w := Sample.world (mkFailureCounter 101 (Some (Aware 5 0))) None in
  exists e,
    exc_class e = TypeError /\
    fst (state w) = Exn e /\
    fst (__call__ (Sample.returns (VInt 7)) [] [] w) = Exn e /\
    log (snd (__call__ (Sample.returns (VInt 7)) [] [] w)) = log w /\
    self (snd (__call__ (Sample.returns (VInt 7)) [] [] w)) = self w.
Proof.
  intros w.
  apply (aware_timestamp_breaks_calls (Sample.returns (VInt 7)) [] [] w 5 0);
    reflexivity.
Defined.

(** An open breaker with 150 failures, reset by hand. *)
Lemma reset_closes_breaker_witness :
  let w := Sample.world (mkFailureCounter 150 (Some (Naive 5))) None in
  snapshot (snd (reset w)) = FailureCounter_default /\
  state (snd (reset w)) = (Val State.closed, snd (reset w)) /\
  (forall func func_args func_kwargs,
     exists l,
       log (snd (__call__ func func_args func_kwargs (snd (reset w)))) =
       log w ++ EvReset :: EvInvoke func_args func_kwargs :: l).
Proof.
  intros w. apply (reset_closes_breaker w).
  unfold w, Sample.world, self, __init__, _failure_threshold. lia.
Defined.

(** A half-open breaker (101 failures, the last one stamped after the
    current time) closed by one success. *)
Lemma success_closes_breaker_witness :
  let w := Sample.world (mkFailureCounter 101 (Some (Naive 5000))) None in
  fst (state w) = Val State.half_open /\
  fst (state (snd (__call__ (Sample.returns (VInt 7)) [] [] w))) =
    Val State.closed.
Proof.
  intros w. split; [reflexivity |].
  apply (success_closes_breaker (Sample.returns (VInt 7)) [] []
           w (snd (state w)) State.half_open (VInt 7)).
  - unfold w, Sample.world, self, __init__, _failure_threshold. lia.
  - reflexivity.
  - discriminate.
  - left. reflexivity.
  - reflexivity.
Defined.

(** The 100th failure leaves the breaker closed, the 101st does not. *)
Lemma failures_trip_above_threshold_witness :
  let w := Sample.world FailureCounter_default None in
  fst (state (Client.perform_all (repeat Client.RecordFailure 100) w)) =
    Val State.closed /\
  (fst (state (Client.perform_all (repeat Client.RecordFailure 101) w)) =
     Val State.open \/
   fst (state (Client.perform_all (repeat Client.RecordFailure 101) w)) =
     Val State.half_open).
Proof.
  intros w. split.
  - apply (failures_trip_above_threshold 100 w); [reflexivity |].
    unfold w, Sample.world, self, __init__, _failure_threshold. lia.
  - apply (failures_trip_above_threshold 101 w); [reflexivity | | lia].
    unfold w, Sample.world, self, __init__, _failure_threshold. lia.
Defined.

(** The state read right after a recorded failure, on the ticking clock. *)
Lemma recorded_failure_never_half_open_witness :
  let w := Sample.world (mkFailureCounter 100 (Some (Naive 5))) None in
  fst (state (snd (record_failure w))) <> Val State.half_open /\
  (total_failures (snapshot w) + 1 >
   _failure_threshold (self (snd (record_failure w))) ->
   fst (state (snd (record_failure w))) = Val State.open).
Proof.
  intros w.
  apply (recorded_failure_never_half_open w (snd (record_failure w))).
  - intros i j Hij. unfold w, Sample.world, clock, Sample.ticking. lia.
  - reflexivity.
  - reflexivity.
  - unfold w, Sample.world. cbn. lia.
Defined.

(** A client mixing every kind of action on a fresh breaker. *)
Lemma client_program_keeps_state_readable_witness :
  let w := Sample.world FailureCounter_default None in
  let l := [Client.Call (Sample.raises ValueError "boom") [] [];
            Client.Send (Sample.returns (VResponse 503)) [] [];
            Client.RecordFailure; Client.ReadState; Client.Reset;
            Client.AddFailureChecker Sample.always_failure;
            Client.Call (Sample.returns (VInt 1)) [] []] in
  Client.stamped (snapshot (Client.perform_all l w)) /\
  _failure_threshold (self (Client.perform_all l w)) =
    _failure_threshold (self w) /\
  exists s, fst (state (Client.perform_all l w)) = Val s.
Proof.
  intros w l. apply (client_program_keeps_state_readable l w).
  - unfold w, Sample.world, self, __init__, _failure_threshold. lia.
  - intros Hpos. unfold w, Sample.world, snapshot in Hpos. cbn in Hpos. lia.
Defined.

(** Five more calls after the breaker has tripped on the ticking clock. *)
Lemma tripped_breaker_never_recovers_witness :
  let w := Sample.world FailureCounter_default (Some Sample.always_failure) in
  let tripped :=
    snd (call_repeatedly 101 (Sample.raises ValueError "boom") [] [] w) in
  let later := call_repeatedly 5 (Sample.raises ValueError "boom") [] [] tripped in
  fst later = repeat (Exn (mkExc CircuitBreakerError "")) 5 /\
  invocation_count (log (snd later)) = (invocation_count (log w) + 101)%nat /\
  total_failures (snapshot (snd later)) = 101.
Proof.
  intros w.
  assert (Hzero : failure_counter MemoryStorage.new = FailureCounter_default)
    by reflexivity.
  apply (tripped_breaker_never_recovers
           (Sample.raises ValueError "boom") (mkExc ValueError "boom")
           Sample.always_failure [] []
           (fun _ _ => eq_refl) eq_refl (fun _ => eq_refl)
           w MemoryStorage.new 5 eq_refl Hzero).
  intros i j Hij. unfold w, Sample.world, clock, Sample.ticking. lia.
Defined.
